(** * Node_classification.ipynb: GraphSAGE node classification

    A shallow embedding of the code authored in the notebook
    [src/Node_classification.ipynb]:

    - [GraphSAGEModel.__init__] and [GraphSAGEModel.forward],
    - [NodeClassification.__init__] and [NodeClassification.forward],
    - [NCEvaluate],
    - the computation of [train_idx], [val_idx] and [test_idx].

    The notebook is glue around PyTorch, NumPy and DGL.  What those libraries
    supply is handled as follows.

    - The aggregation layer [dgl_conv.SAGEConv] is opaque: the forward pass of
      a layer, and what its constructor checks and draws, are section
      variables; the constructor may raise.
      A layer object is a record of its constructor arguments, its weights
      and its [training] flag.  A forward pass reads its layer, may draw from
      the random number generator (dropout) and may raise.
    - Tensor indexing, [torch.max], [==], [torch.sum] and [np.where] are
      written out on lists, with the exceptions they raise.
    - Floating point is idealised.  Logits are elements of an arbitrary type
      [score] with an arbitrary comparison; the accuracy, a Python float, is
      an exact rational; for the bound on the loss, scores are real numbers
      and [torch.nn.CrossEntropyLoss] is its documented formula. *)

From Stdlib Require Import String.
From Stdlib Require Import List ZArith QArith Bool Lia.
From Stdlib Require Import Reals Lra.
From Stdlib Require Import Sorted Permutation.
Import ListNotations.

Local Open Scope Z_scope.

(* ================================================================== *)
(** * Outcomes of Python code *)

Inductive exn : Type :=
| IndexError
| ZeroDivisionError
| RuntimeError
| ValueError.

Inductive result (A : Type) : Type :=
| Ok (a : A)
| Raise (e : exn).

Arguments Ok {A} a.
Arguments Raise {A} e.

Definition rbind {A B : Type} (r : result A) (k : A -> result B) : result B :=
  match r with
  | Ok a => k a
  | Raise e => Raise e
  end.

Declare Scope result_scope.
Delimit Scope result_scope with result.
Notation "x <- c ;; k" := (rbind c (fun x => k))
  (at level 61, c at next level, right associativity) : result_scope.

Fixpoint mapM {A B : Type} (f : A -> result B) (l : list A) : result (list B) :=
  (match l with
   | [] => Ok []
   | a :: rest =>
       b <- f a ;;
       bs <- mapM f rest ;;
       Ok (b :: bs)
   end)%result.

(* ================================================================== *)
(** * Tensors and arrays as lists *)

(** [len(t)] *)
Definition len {A : Type} (t : list A) : Z := Z.of_nat (length t).

(** [t[i]] for an integer [i]: a negative index counts from the end, an index
    outside [-len(t), len(t)) raises [IndexError]. *)
Definition py_index {A : Type} (t : list A) (i : Z) : result A :=
  let j := if i <? 0 then len t + i else i in
  if (0 <=? j) && (j <? len t) then
    match nth_error t (Z.to_nat j) with
    | Some x => Ok x
    | None => Raise IndexError
    end
  else Raise IndexError.

(** [t[idx]] for an integer array [idx]: the rows of [t] at the positions of
    [idx], in the order of [idx]. *)
Definition getitem {A : Type} (t : list A) (idx : list Z) : result (list A) :=
  mapM (py_index t) idx.

(** [a == b] on one-dimensional integer tensors, with broadcasting of a
    tensor of one element. *)
Definition tensor_eq (a b : list Z) : result (list bool) :=
  if (length a =? length b)%nat then
    Ok (map (fun p => fst p =? snd p) (combine a b))
  else if (length a =? 1)%nat then
    Ok (map (fun y => hd 0 a =? y) b)
  else if (length b =? 1)%nat then
    Ok (map (fun x => x =? hd 0 b) a)
  else Raise RuntimeError.

(** [torch.sum(t).item()] on a boolean tensor: the number of [True]. *)
Fixpoint tensor_sum (t : list bool) : Z :=
  match t with
  | [] => 0
  | b :: rest => (if b then 1 else 0) + tensor_sum rest
  end.

(** [x / n] for a float [x] and an integer [n]. *)
Definition py_truediv (x : Q) (n : Z) : result Q :=
  if n =? 0 then Raise ZeroDivisionError else Ok (x / inject_Z n)%Q.

(** [mask > 0], elementwise; in a boolean mask [True] is 1 and [False]
    is 0. *)
Definition gt0 (mask : list Z) : list bool :=
  map (fun x => 0 <? x) mask.

(** [np.where(cond)[0]]: the positions of [True] in [cond], ascending. *)
Fixpoint where_from (k : Z) (cond : list bool) : list Z :=
  match cond with
  | [] => []
  | c :: rest =>
      if c then k :: where_from (k + 1) rest else where_from (k + 1) rest
  end.

Definition np_where (cond : list bool) : list Z := where_from 0 cond.

(** [range(n)] runs [n] times, and not at all when [n <= 0]. *)
Definition range_len (n : Z) : nat := Z.to_nat n.

Section Argmax.

Variable score : Type.
(** [score_ltb a b]: [b] replaces [a] as the running maximum. *)
Variable score_ltb : score -> score -> bool.

Fixpoint max_scan (best : score) (besti : Z) (i : Z) (row : list score)
  : score * Z :=
  match row with
  | [] => (best, besti)
  | x :: rest =>
      if score_ltb best x then max_scan x i (i + 1) rest
      else max_scan best besti (i + 1) rest
  end.

(** One row of [torch.max(t, dim=1)]: the maximum and the first position
    that holds it; a row without columns cannot be reduced
    ([IndexError]). *)
Definition row_max (row : list score) : result (score * Z) :=
  match row with
  | [] => Raise IndexError
  | x :: rest => Ok (max_scan x 0 1 rest)
  end.

(** [torch.max(t, dim=1)]: the pair (values, indices).  A tensor is the
    list of its rows, so the width of a tensor of no rows is not
    represented: such a tensor is reduced to no values, as [torch.max] does
    when the width is not 0.  No statement below relies on the reduction of
    a tensor of no rows and no columns. *)
Definition torch_max_dim1 (t : list (list score))
  : result (list score * list Z) :=
  (ps <- mapM row_max t ;;
   Ok (map fst ps, map snd ps))%result.

End Argmax.

Arguments max_scan {score}.
Arguments row_max {score}.
Arguments torch_max_dim1 {score}.

(* ================================================================== *)
(** * The state of the framework *)

Section Framework.

(** The state of the random number generator (dropout, weight
    initialisation). *)
Variable Rng : Type.

Record Torch : Type := mkTorch {
  grad_enabled : bool;
  rng : Rng
}.

Definition set_grad_enabled (b : bool) (t : Torch) : Torch :=
  {| grad_enabled := b; rng := rng t |}.

Definition set_rng (r : Rng) (t : Torch) : Torch :=
  {| grad_enabled := grad_enabled t; rng := r |}.

(** A computation that reads and updates the framework state and may
    raise. *)
Definition M (A : Type) : Type := Torch -> result A * Torch.

Definition ret {A : Type} (a : A) : M A := fun t => (Ok a, t).

Definition bind {A B : Type} (m : M A) (k : A -> M B) : M B :=
  fun t =>
    match m t with
    | (Ok a, t') => k a t'
    | (Raise e, t') => (Raise e, t')
    end.

Definition lift {A : Type} (r : result A) : M A := fun t => (r, t).

(** [with torch.no_grad(): body]: gradient tracking is switched off for
    the body and restored afterwards, also when the body raises. *)
Definition no_grad {A : Type} (body : M A) : M A :=
  fun t =>
    let prev := grad_enabled t in
    let (r, t') := body (set_grad_enabled false t) in
    (r, set_grad_enabled prev t').

End Framework.

Arguments mkTorch {Rng}.
Arguments grad_enabled {Rng}.
Arguments rng {Rng}.
Arguments set_grad_enabled {Rng}.
Arguments set_rng {Rng}.
Arguments ret {Rng A}.
Arguments bind {Rng A B}.
Arguments lift {Rng A}.
Arguments no_grad {Rng A}.

Declare Scope torch_scope.
Delimit Scope torch_scope with torch.
Notation "x <- c ;; k" := (bind c (fun x => k))
  (at level 61, c at next level, right associativity) : torch_scope.

(* ================================================================== *)
(** * The modules of the notebook *)

Section Modules.

(** What the libraries supply. *)
Variable Graph : Type.        (* a [DGLGraph] *)
Variable score : Type.        (* an entry of a float tensor *)
Variable Activation : Type.   (* a callable such as [F.relu] *)
Variable Params : Type.       (* the weight matrices and biases of a layer *)
Variable Rng : Type.
Variable lossT : Type.        (* the value of a loss *)

Variable score_ltb : score -> score -> bool.

Definition tensor2 : Type := list (list score).

(** A [dgl_conv.SAGEConv] object. *)
Record SAGEConv : Type := mkSAGEConv {
  in_feats : Z;
  out_feats : Z;
  aggregator_type : string;
  feat_drop : Q;
  activation : option Activation;
  params : Params;
  training : bool
}.

(** What the constructor of a layer does besides storing its arguments:
    it checks the sizes, the aggregator type and the dropout rate, and
    draws the initial weights from the generator.  It raises on arguments
    that the library refuses (a dropout rate outside [0, 1], a negative
    size). *)
Variable init_parameters : Z -> Z -> string -> Q -> M Rng Params.

(** [layer(g, h)] *)
Variable SAGEConv_forward : SAGEConv -> Graph -> tensor2 -> M Rng tensor2.

(** [torch.nn.CrossEntropyLoss()(input, target)] *)
Variable cross_entropy : tensor2 -> list Z -> result lossT.

(** [dgl_conv.SAGEConv(in_feats, out_feats, aggregator_type,
                       feat_drop=..., activation=...)];
    a new module is in training mode. *)
Definition SAGEConv_new (in_f out_f : Z) (agg : string) (drop : Q)
    (act : option Activation) : M Rng SAGEConv :=
  (p <- init_parameters in_f out_f agg drop ;;
   ret {| in_feats := in_f; out_feats := out_f; aggregator_type := agg;
          feat_drop := drop; activation := act; params := p;
          training := true |})%torch.

Record GraphSAGEModel : Type := mkGraphSAGEModel {
  layers : list SAGEConv;
  gs_training : bool
}.

(** The body of [for i in range(n_layers - 1)], run [k] times. *)
Fixpoint hidden_layers (k : nat) (n_hidden : Z) (agg : string) (drop : Q)
    (act : option Activation) (ls : list SAGEConv)
  : M Rng (list SAGEConv) :=
  match k with
  | O => ret ls
  | S k' =>
      (l <- SAGEConv_new n_hidden n_hidden agg drop act ;;
       hidden_layers k' n_hidden agg drop act (ls ++ [l]))%torch
  end.

(** [GraphSAGEModel.__init__] *)
Definition GraphSAGEModel_init (in_f n_hidden out_dim n_layers : Z)
    (act : option Activation) (dropout : Q) (agg : string)
  : M Rng GraphSAGEModel :=
  (let ls := [] in
   (* input layer *)
   l <- SAGEConv_new in_f n_hidden agg dropout act ;;
   let ls := ls ++ [l] in
   (* hidden layers *)
   ls <- hidden_layers (range_len (n_layers - 1)) n_hidden agg dropout act
           ls ;;
   (* output layer *)
   l <- SAGEConv_new n_hidden out_dim agg dropout None ;;
   let ls := ls ++ [l] in
   ret {| layers := ls; gs_training := true |})%torch.

(** The loop of [GraphSAGEModel.forward]. *)
Fixpoint layers_forward (ls : list SAGEConv) (g : Graph) (h : tensor2)
  : M Rng tensor2 :=
  match ls with
  | [] => ret h
  | layer :: rest =>
      (h' <- SAGEConv_forward layer g h ;;
       layers_forward rest g h')%torch
  end.

(** [GraphSAGEModel.forward] *)
Definition GraphSAGEModel_forward (self : GraphSAGEModel) (g : Graph)
    (features : tensor2) : M Rng tensor2 :=
  let h := features in
  layers_forward (layers self) g h.

(** A loss module; the notebook builds one kind. *)
Inductive loss_module : Type := CrossEntropyLoss.

Definition loss_call (l : loss_module) (input : tensor2) (target : list Z)
  : result lossT :=
  match l with
  | CrossEntropyLoss => cross_entropy input target
  end.

Record NodeClassification : Type := mkNodeClassification {
  gconv_model : GraphSAGEModel;
  loss_fcn : loss_module;
  nc_training : bool
}.

(** [NodeClassification.__init__] *)
Definition NodeClassification_init (gconv : GraphSAGEModel)
    (n_hidden n_classes : Z) : NodeClassification :=
  {| gconv_model := gconv; loss_fcn := CrossEntropyLoss;
     nc_training := true |}.

(** [NodeClassification.forward]; [labels] is the variable of that name
    at the top level of the notebook. *)
Definition NodeClassification_forward (labels : list Z)
    (self : NodeClassification) (g : Graph) (features : tensor2)
    (train_idx : list Z) : M Rng lossT :=
  (logits <- GraphSAGEModel_forward (gconv_model self) g features ;;
   sel_logits <- lift (getitem logits train_idx) ;;
   sel_labels <- lift (getitem labels train_idx) ;;
   lift (loss_call (loss_fcn self) sel_logits sel_labels))%torch.

(** [nn.Module.train(mode)] sets the flag of the module and of every
    module below it; [eval()] is [train(False)]. *)
Definition SAGEConv_train (mode : bool) (l : SAGEConv) : SAGEConv :=
  {| in_feats := in_feats l; out_feats := out_feats l;
     aggregator_type := aggregator_type l; feat_drop := feat_drop l;
     activation := activation l; params := params l; training := mode |}.

Definition GraphSAGEModel_train (mode : bool) (m : GraphSAGEModel)
  : GraphSAGEModel :=
  {| layers := map (SAGEConv_train mode) (layers m); gs_training := mode |}.

Definition NodeClassification_train (mode : bool) (m : NodeClassification)
  : NodeClassification :=
  {| gconv_model := GraphSAGEModel_train mode (gconv_model m);
     loss_fcn := loss_fcn m; nc_training := mode |}.

Definition NodeClassification_eval (m : NodeClassification)
  : NodeClassification :=
  NodeClassification_train false m.

(** [model.parameters()]: the weights of the layers, in order; the loss
    module has none. *)
Definition parameters (m : NodeClassification) : list Params :=
  map params (layers (gconv_model m)).

(** The body of [NCEvaluate] under [torch.no_grad()]. *)
Definition NCEvaluate_body (model : NodeClassification) (g : Graph)
    (features : tensor2) (labels : list Z) (test_idx : list Z) : M Rng Q :=
  (logits <- GraphSAGEModel_forward (gconv_model model) g features ;;
   logits <- lift (getitem logits test_idx) ;;
   test_labels <- lift (getitem labels test_idx) ;;
   vi <- lift (torch_max_dim1 score_ltb logits) ;;
   let indices := snd vi in
   eqs <- lift (tensor_eq indices test_labels) ;;
   let correct := tensor_sum eqs in
   lift (py_truediv (inject_Z correct * 1) (len test_labels)))%torch.

(** [NCEvaluate]: the model object after the call, the returned accuracy
    (or the exception) and the framework state after the call. *)
Definition NCEvaluate (model : NodeClassification) (g : Graph)
    (features : tensor2) (labels : list Z) (test_idx : list Z)
    (t : Torch Rng) : NodeClassification * (result Q * Torch Rng) :=
  let model := NodeClassification_eval model in
  (model, no_grad (NCEvaluate_body model g features labels test_idx) t).

End Modules.

Arguments mkSAGEConv {Activation Params}.
Arguments in_feats {Activation Params}.
Arguments out_feats {Activation Params}.
Arguments aggregator_type {Activation Params}.
Arguments feat_drop {Activation Params}.
Arguments activation {Activation Params}.
Arguments params {Activation Params}.
Arguments training {Activation Params}.
Arguments layers {Activation Params}.
Arguments gs_training {Activation Params}.
Arguments gconv_model {Activation Params}.
Arguments loss_fcn {Activation Params}.
Arguments nc_training {Activation Params}.
Arguments NodeClassification_init {Activation Params}.
Arguments NodeClassification_eval {Activation Params}.
Arguments parameters {Activation Params}.
Arguments SAGEConv_new {Activation Params Rng}.
Arguments hidden_layers {Activation Params Rng}.
Arguments GraphSAGEModel_init {Activation Params Rng}.
Arguments GraphSAGEModel_forward {Graph score Activation Params Rng}.
Arguments layers_forward {Graph score Activation Params Rng}.
Arguments NodeClassification_forward {Graph score Activation Params Rng lossT}.
Arguments NCEvaluate_body {Graph score Activation Params Rng}.
Arguments NCEvaluate {Graph score Activation Params Rng}.

(** The arguments a layer was built from, without its weights and its
    mode. *)
Definition layer_config {Activation Params : Type}
    (l : SAGEConv Activation Params)
  : Z * Z * string * Q * option Activation :=
  (in_feats l, out_feats l, aggregator_type l, feat_drop l, activation l).

(** The model and every module below it are in evaluation mode. *)
Definition in_eval_mode {Activation Params : Type}
    (m : NodeClassification Activation Params) : Prop :=
  nc_training m = false /\
  gs_training (gconv_model m) = false /\
  Forall (fun l => training l = false) (layers (gconv_model m)).

(* ================================================================== *)
(** * The training cell *)

Section Training.

Context {Graph score Activation Params Rng lossT : Type}.

(** The state that the optimizer and automatic differentiation keep: the
    [.grad] fields of the weights and the moments and step count of Adam. *)
Variable OptWorld : Type.

Variable score_ltb : score -> score -> bool.
Variable SAGEConv_forward :
  SAGEConv Activation Params -> Graph -> tensor2 score ->
  M Rng (tensor2 score).
Variable cross_entropy : tensor2 score -> list Z -> result lossT.

(** [torch.optim.Adam(params, lr=lr, weight_decay=weight_decay)] *)
Variable adam_init : list Params -> Q -> Q -> OptWorld.
(** [optimizer.zero_grad()] *)
Variable zero_grad : OptWorld -> OptWorld.
(** [loss.backward()]; the loss carries the computation it came from. *)
Variable backward : lossT -> OptWorld -> result OptWorld.
(** [optimizer.step()]: the new value of the weights of layer [k], and the
    state of the optimizer after the step. *)
Variable adam_step : OptWorld -> nat -> Params -> Params.
Variable adam_next : OptWorld -> OptWorld.

(** A line of standard output. *)
Inductive line : Type :=
| EpochLine (epoch : Z) (loss : lossT) (acc : Q)
| BlankLine
| TestLine (acc : Q).

(** The objects that the cell works on. *)
Record Notebook : Type := mkNotebook {
  model : NodeClassification Activation Params;
  optimizer : OptWorld;
  torch : Torch Rng;
  stdout : list line
}.

Definition set_params (p : Params) (l : SAGEConv Activation Params)
  : SAGEConv Activation Params :=
  {| in_feats := in_feats l; out_feats := out_feats l;
     aggregator_type := aggregator_type l; feat_drop := feat_drop l;
     activation := activation l; params := p; training := training l |}.

(** The weights of the layers from position [k] on, after a step. *)
Fixpoint step_layers (o : OptWorld) (k : nat)
    (ls : list (SAGEConv Activation Params))
  : list (SAGEConv Activation Params) :=
  match ls with
  | [] => []
  | l :: rest =>
      set_params (adam_step o k (params l)) l :: step_layers o (S k) rest
  end.

(** [optimizer.step()] on the weights of the model. *)
Definition optimizer_step (o : OptWorld)
    (m : NodeClassification Activation Params)
  : NodeClassification Activation Params :=
  {| gconv_model :=
       {| layers := step_layers o 0 (layers (gconv_model m));
          gs_training := gs_training (gconv_model m) |};
     loss_fcn := loss_fcn m; nc_training := nc_training m |}.

(** The body of [for epoch in range(n_epochs)]. *)
Definition epoch_body (labels : list Z) (g : Graph)
    (features : tensor2 score) (train_idx val_idx : list Z) (epoch : Z)
    (s : Notebook) : result unit * Notebook :=
  (* Set the model in the training mode. *)
  let m := NodeClassification_train Activation Params true (model s) in
  (* forward *)
  match NodeClassification_forward SAGEConv_forward cross_entropy labels m g
          features train_idx (torch s) with
  | (Raise e, t1) => (Raise e, mkNotebook m (optimizer s) t1 (stdout s))
  | (Ok loss, t1) =>
      (* backward *)
      let o := zero_grad (optimizer s) in
      match backward loss o with
      | Raise e => (Raise e, mkNotebook m o t1 (stdout s))
      | Ok o =>
          let m := optimizer_step o m in
          let o := adam_next o in
          (* validation *)
          let (m, rt) :=
            NCEvaluate score_ltb SAGEConv_forward m g features labels val_idx
              t1 in
          match rt with
          | (Raise e, t2) => (Raise e, mkNotebook m o t2 (stdout s))
          | (Ok acc, t2) =>
              (Ok tt,
               mkNotebook m o t2 (stdout s ++ [EpochLine epoch loss acc]))
          end
      end
  end.

(** [k] rounds of the loop, from [epoch] on. *)
Fixpoint epochs (k : nat) (labels : list Z) (g : Graph)
    (features : tensor2 score) (train_idx val_idx : list Z) (epoch : Z)
    (s : Notebook) : result unit * Notebook :=
  match k with
  | O => (Ok tt, s)
  | S k' =>
      match epoch_body labels g features train_idx val_idx epoch s with
      | (Ok _, s') =>
          epochs k' labels g features train_idx val_idx (epoch + 1) s'
      | (Raise e, s') => (Raise e, s')
      end
  end.

(** The training cell, for the hyperparameters [weight_decay], [n_epochs]
    and [lr]. *)
Definition training_loop (weight_decay : Q) (n_epochs : Z) (lr : Q)
    (gconv : GraphSAGEModel Activation Params) (n_hidden n_classes : Z)
    (labels : list Z) (g : Graph) (features : tensor2 score)
    (train_idx val_idx test_idx : list Z) (t : Torch Rng)
  : result unit * Notebook :=
  (* Node classification task *)
  let m := NodeClassification_init gconv n_hidden n_classes in
  (* create the Adam optimizer *)
  let o := adam_init (parameters m) lr weight_decay in
  match epochs (range_len n_epochs) labels g features train_idx val_idx 0
          (mkNotebook m o t []) with
  | (Raise e, s) => (Raise e, s)
  | (Ok _, s) =>
      let out := stdout s ++ [BlankLine] in
      let (m, rt) :=
        NCEvaluate score_ltb SAGEConv_forward (model s) g features labels
          test_idx (torch s) in
      match rt with
      | (Raise e, t') => (Raise e, mkNotebook m (optimizer s) t' out)
      | (Ok acc, t') =>
          (Ok tt, mkNotebook m (optimizer s) t' (out ++ [TestLine acc]))
      end
  end.

(** The cell as the notebook has it. *)
Definition training_cell :=
  training_loop (5 # 10000) 150 (1 # 1000).

(** An accuracy that a line shows lies between 0 and 1. *)
Definition line_in_range (l : line) : Prop :=
  match l with
  | EpochLine _ _ acc => (0 <= acc <= 1)%Q
  | BlankLine => True
  | TestLine acc => (0 <= acc <= 1)%Q
  end.

(** The line is the log line of epoch [k]. *)
Definition is_epoch_line (k : Z) (l : line) : Prop :=
  match l with
  | EpochLine epoch _ _ => epoch = k
  | _ => False
  end.

End Training.

Arguments EpochLine {lossT}.
Arguments BlankLine {lossT}.
Arguments TestLine {lossT}.
Arguments model {Activation Params Rng lossT OptWorld}.
Arguments optimizer {Activation Params Rng lossT OptWorld}.
Arguments torch {Activation Params Rng lossT OptWorld}.
Arguments stdout {Activation Params Rng lossT OptWorld}.
Arguments mkNotebook {Activation Params Rng lossT OptWorld}.
Arguments set_params {Activation Params}.
Arguments step_layers {Activation Params OptWorld}.
Arguments optimizer_step {Activation Params OptWorld}.
Arguments epoch_body {Graph score Activation Params Rng lossT OptWorld}.
Arguments epochs {Graph score Activation Params Rng lossT OptWorld}.
Arguments training_loop {Graph score Activation Params Rng lossT OptWorld}.
Arguments training_cell {Graph score Activation Params Rng lossT OptWorld}.
Arguments line_in_range {lossT}.
Arguments is_epoch_line {lossT}.

(* ================================================================== *)
(** * The predictions that [NCEvaluate] counts *)

Section Top1.

Variable score : Type.
Variable score_ltb : score -> score -> bool.

(** The class that [torch.max] reports for one output row. *)
Definition prediction (row : list score) : result Z :=
  (p <- row_max score_ltb row ;; Ok (snd p))%result.

(** The class reported for the output row of index [i] is the label of
    [i]. *)
Definition hit (logits : list (list score)) (labels : list Z) (i : Z)
  : bool :=
  match py_index logits i, py_index labels i with
  | Ok row, Ok y =>
      match prediction row with
      | Ok c => c =? y
      | Raise _ => false
      end
  | _, _ => false
  end.

(** The number of indices of the index set whose reported class is their
    label, divided by the size of the index set. *)
Definition hit_rate (logits : list (list score))
    (labels : list Z) (idx : list Z) : Q :=
  (inject_Z (len (filter (hit logits labels) idx))
   / inject_Z (len idx))%Q.

(** Position [j] holds the first maximum of [row]. *)
Definition first_maximum (row : list score) (v : score) (j : Z) : Prop :=
  0 <= j < len row /\
  nth_error row (Z.to_nat j) = Some v /\
  (forall k x, nth_error row k = Some x -> score_ltb v x = false) /\
  (forall k x, (k < Z.to_nat j)%nat -> nth_error row k = Some x ->
               score_ltb x v = true).

End Top1.

Arguments prediction {score}.
Arguments hit {score}.
Arguments hit_rate {score}.
Arguments first_maximum {score}.

(* ================================================================== *)
(** * Top-1 accuracy, as the specification words it *)

Section Top1Spec.

Variable score : Type.
Variable score_ltb : score -> score -> bool.

(** No entry of [row] is greater than [v]. *)
Definition is_greatest (row : list score) (v : score) : bool :=
  forallb (fun x => negb (score_ltb v x)) row.

(** The position, counted from [j], of the first entry of [cands] that is
    a greatest entry of [row]. *)
Fixpoint first_greatest (row cands : list score) (j : Z) : option Z :=
  match cands with
  | [] => None
  | v :: rest =>
      if is_greatest row v then Some j else first_greatest row rest (j + 1)
  end.

(** The arg-max of a row over the classes: the position of its greatest
    entry, the first such position when several entries are greatest.  A
    row without entries has none. *)
Definition spec_argmax (row : list score) : option Z :=
  first_greatest row row 0.

(** Index [i] is classified correctly: the arg-max of the output row for
    [i] is the label of [i]. *)
Definition spec_hit (logits : list (list score)) (labels : list Z) (i : Z)
  : bool :=
  match py_index logits i, py_index labels i with
  | Ok row, Ok y =>
      match spec_argmax row with
      | Some c => c =? y
      | None => false
      end
  | _, _ => false
  end.

(** The number of correctly classified indices of the index set, divided
    by the size of the index set. *)
Definition spec_top1_accuracy (logits : list (list score))
    (labels : list Z) (idx : list Z) : Q :=
  (inject_Z (len (filter (spec_hit logits labels) idx))
   / inject_Z (len idx))%Q.

End Top1Spec.

Arguments is_greatest {score}.
Arguments first_greatest {score}.
Arguments spec_argmax {score}.
Arguments spec_hit {score}.
Arguments spec_top1_accuracy {score}.



(** An index that [t[i]] accepts. *)
Definition valid_index (n : Z) (i : Z) : Prop := - n <= i < n.

(** All layers of a list agree on input size, output size and activation. *)
Definition identical_layers {Activation Params : Type}
    (ls : list (SAGEConv Activation Params)) : Prop :=
  forall l1 l2, In l1 ls -> In l2 ls ->
    in_feats l1 = in_feats l2 /\
    out_feats l1 = out_feats l2 /\
    activation l1 = activation l2.

(** The constructor of a layer accepts these arguments: in every state of
    the framework it returns weights. *)
Definition accepts {Params Rng : Type}
    (init_parameters : Z -> Z -> string -> Q -> M Rng Params)
    (in_f out_f : Z) (agg : string) (drop : Q) : Prop :=
  forall t, exists p t', init_parameters in_f out_f agg drop t = (Ok p, t').

(** The arguments a layer was built from. *)
Definition built_from {Activation Params : Type} (in_f out_f : Z)
    (agg : string) (drop : Q) (act : option Activation)
    (l : SAGEConv Activation Params) : Prop :=
  in_feats l = in_f /\ out_feats l = out_f /\ aggregator_type l = agg /\
  feat_drop l = drop /\ activation l = act.

(* ================================================================== *)
(** * Cross-entropy on real numbers *)

Module RealLoss.

Local Open Scope R_scope.

(** The value of a loss: a number, or the not-a-number that a mean over
    no sample gives. *)
Inductive loss_value : Type :=
| Finite (r : R)
| NaN.

Definition sum_exp (row : list R) : R :=
  fold_right (fun x s => exp x + s) 0 row.

Definition Rsum (l : list R) : R := fold_right Rplus 0 l.

(** The default [ignore_index] of [CrossEntropyLoss]. *)
Definition ignore_index : Z := (-100)%Z.

(** The loss of one sample, [- log (softmax row)[y]]; a sample whose
    target is [ignore_index] is skipped, and a target that is no class
    raises. *)
Definition nll_term (p : list R * Z) : result (option R) :=
  let (row, y) := p in
  if (y =? ignore_index)%Z then Ok None
  else if ((0 <=? y) && (y <? len row))%Z then
    Ok (Some (ln (sum_exp row) - nth (Z.to_nat y) row 0))
  else Raise IndexError.

Fixpoint kept (l : list (option R)) : list R :=
  match l with
  | [] => []
  | Some x :: rest => x :: kept rest
  | None :: rest => kept rest
  end.

(** [CrossEntropyLoss()(input, target)] with the default mean reduction:
    the mean of the losses of the samples that are not skipped. *)
Definition cross_entropy (input : list (list R)) (target : list Z)
  : result loss_value :=
  if (length input =? length target)%nat then
    (terms <- mapM nll_term (combine input target) ;;
     match kept terms with
     | [] => Ok NaN
     | x :: rest => Ok (Finite (Rsum (x :: rest) / INR (length (x :: rest))))
     end)%result
  else Raise ValueError.

(** A target that is a class of its row. *)
Definition class_of (row : list R) (y : Z) : Prop := (0 <= y < len row)%Z.

End RealLoss.

(* ================================================================== *)
(** * A small instance, for running the definitions *)

Module Demo.

Inductive act : Type := relu.

(** Weights are a single integer drawn from an integer generator; as in
    the library, a dropout rate outside [0, 1] is a [ValueError] and a
    negative size a [RuntimeError]. *)
Definition init_weights (in_f out_f : Z) (agg : string) (drop : Q)
  : M Z Z :=
  fun t =>
    if negb (Qle_bool 0 drop && Qle_bool drop 1) then (Raise ValueError, t)
    else if (in_f <? 0) || (out_f <? 0) then (Raise RuntimeError, t)
    else (Ok (rng t), set_rng (rng t + 1) t).

(** A layer that adds its weight to every entry. *)
Definition shift_forward {A : Type} (l : SAGEConv A Z) (g : unit)
    (h : list (list Z)) : M Z (list (list Z)) :=
  ret (map (map (Z.add (params l))) h).

Definition shift_forward_R {A : Type} (l : SAGEConv A R) (g : unit)
    (h : list (list R)) : M Z (list (list R)) :=
  ret (map (map (Rplus (params l))) h).

Definition torch0 : Torch Z := mkTorch true 0.

(** The model of the notebook: pubmed has 500 input features and 3
    classes. *)
Definition notebook_model : result (GraphSAGEModel act Z) * Torch Z :=
  GraphSAGEModel_init init_weights 500 64 3 2 (Some relu) (1 # 2) "gcn"
    torch0.

Definition layer0 (w : Z) : SAGEConv act Z :=
  mkSAGEConv 3 3 "gcn"%string (1 # 2) (Some relu) w true.

Definition model0 : NodeClassification act Z :=
  NodeClassification_init
    {| layers := [layer0 1; layer0 (-1)]; gs_training := true |} 64 3.

Definition features0 : list (list Z) := [[1; 5; 2]; [7; 0; 0]; [0; 0; 9]].
Definition labels0 : list Z := [1; 0; 1].

Definition layerR (w : R) : SAGEConv act R :=
  mkSAGEConv 2 2 "gcn"%string (1 # 2) (Some relu) w true.

Definition modelR : NodeClassification act R :=
  NodeClassification_init
    {| layers := [layerR 0%R]; gs_training := true |} 64 2.

Definition featuresR : list (list R) := [[0%R; 0%R]].

(** The output of [modelR] on [featuresR]. *)
Definition logitsR : list (list R) := [[(0 + 0)%R; (0 + 0)%R]].

Definition labelsR : list Z := [0].

End Demo.

(** An optimizer and a loss on integers, for running the training cell. *)
Module DemoTraining.

(** A loss that counts its samples. *)
Definition count_loss (input : list (list Z)) (target : list Z) : result Z :=
  Ok (len target).

(** The state of the optimizer is the number of steps made. *)
Definition adam_init (ps : list Z) (lr weight_decay : Q) : Z := 0.
Definition zero_grad (o : Z) : Z := o.
Definition backward (loss : Z) (o : Z) : result Z := Ok o.
Definition adam_step (o : Z) (k : nat) (p : Z) : Z := p - 1.
Definition adam_next (o : Z) : Z := o + 1.

Definition gconv0 : GraphSAGEModel Demo.act Z :=
  {| layers := [Demo.layer0 1; Demo.layer0 (-1)]; gs_training := true |}.

(** The cell on the three nodes of [Demo.features0]. *)
Definition run (n_epochs : Z) (train_idx val_idx test_idx : list Z)
  : result unit * Notebook Z :=
  training_loop Z.ltb Demo.shift_forward count_loss adam_init zero_grad
    backward adam_step adam_next (5 # 10000) n_epochs (1 # 1000) gconv0 64 3
    Demo.labels0 tt Demo.features0 train_idx val_idx test_idx Demo.torch0.

End DemoTraining.

(* ================================================================== *)
(** * Properties of the tensor operations *)

Lemma mapM_Ok_cons {A B : Type} (f : A -> result B) a l bs :
  mapM f (a :: l) = Ok bs ->
  exists b bs', f a = Ok b /\ mapM f l = Ok bs' /\ bs = b :: bs'.
Proof.
  simpl. destruct (f a) as [b|e]; simpl; [|discriminate].
  destruct (mapM f l) as [bs'|e]; simpl; [|discriminate].
  intros H. injection H as <-. now exists b, bs'.
Qed.

Lemma mapM_Ok_length {A B : Type} (f : A -> result B) l :
  forall bs, mapM f l = Ok bs -> length bs = length l.
Proof.
  induction l as [|a l IH]; intros bs H.
  - simpl in H. injection H as <-. reflexivity.
  - apply mapM_Ok_cons in H as (b & bs' & _ & Hl & ->).
    simpl. f_equal. now apply IH.
Qed.

Lemma mapM_total {A B : Type} (f : A -> result B) l :
  Forall (fun a => exists b, f a = Ok b) l ->
  exists bs, mapM f l = Ok bs.
Proof.
  induction 1 as [|a l [b Hb] _ [bs Hbs]].
  - now exists [].
  - exists (b :: bs). simpl. now rewrite Hb, Hbs.
Qed.

Lemma mapM_Ok_Forall {A B : Type} (f : A -> result B) l :
  forall bs, mapM f l = Ok bs -> Forall (fun a => exists b, f a = Ok b) l.
Proof.
  induction l as [|a l IH]; intros bs H; constructor.
  - apply mapM_Ok_cons in H as (b & _ & Hb & _). now exists b.
  - apply mapM_Ok_cons in H as (_ & bs' & _ & Hl & _). now apply (IH bs').
Qed.

Lemma py_index_valid {A : Type} (t : list A) i :
  valid_index (len t) i -> exists x, py_index t i = Ok x.
Proof.
  unfold valid_index, py_index, len. intros Hi.
  set (j := if i <? 0 then Z.of_nat (length t) + i else i).
  assert (Hj : 0 <= j < Z.of_nat (length t)).
  { subst j. destruct (Z.ltb_spec i 0); lia. }
  replace ((0 <=? j) && (j <? Z.of_nat (length t))) with true
    by (symmetry; apply andb_true_iff; split;
        [apply Z.leb_le | apply Z.ltb_lt]; lia).
  destruct (nth_error t (Z.to_nat j)) as [x|] eqn:E; [now exists x|].
  apply nth_error_None in E. lia.
Qed.

Lemma py_index_Ok_valid {A : Type} (t : list A) i x :
  py_index t i = Ok x -> valid_index (len t) i.
Proof.
  unfold valid_index, py_index, len.
  destruct ((0 <=? _) && (_ <? _)) eqn:E; [|discriminate].
  intros _. apply andb_true_iff in E as [E1 E2].
  apply Z.leb_le in E1. apply Z.ltb_lt in E2.
  destruct (Z.ltb_spec i 0); lia.
Qed.

Lemma getitem_total {A : Type} (t : list A) idx :
  Forall (valid_index (len t)) idx -> exists xs, getitem t idx = Ok xs.
Proof.
  intros H. apply mapM_total.
  eapply Forall_impl; [|exact H]. intros i. apply py_index_valid.
Qed.

Lemma getitem_Ok_valid {A : Type} (t : list A) idx xs :
  getitem t idx = Ok xs -> Forall (valid_index (len t)) idx.
Proof.
  intros H. apply mapM_Ok_Forall in H.
  eapply Forall_impl; [|exact H]. intros i [x Hx].
  now apply py_index_Ok_valid in Hx.
Qed.

Lemma where_from_bounds cond :
  forall k, Forall (fun i => k <= i < k + len cond) (where_from k cond).
Proof.
  unfold len. induction cond as [|c rest IH]; intros k.
  - constructor.
  - cbn [where_from length].
    assert (Hrest : Forall (fun i => k <= i < k + Z.of_nat (S (length rest)))
                      (where_from (k + 1) rest)).
    { eapply Forall_impl; [|apply IH]. cbv beta. intros i. lia. }
    destruct c; [constructor; [cbv beta; lia|]|]; exact Hrest.
Qed.

Lemma gt0_length mask : length (gt0 mask) = length mask.
Proof. unfold gt0. apply length_map. Qed.

(** ** C7 *)

(** C7. For a mask with one entry per node, the index set
    [np.where(mask > 0)[0]] (as computed for [train_idx], [val_idx] and
    [test_idx]) holds only indices [i] with [0 <= i < node_count], and
    slicing any array with one entry per node by it stays in bounds: it
    returns a value and does not raise. *)
Theorem split_indices_in_bounds (node_count : Z) (mask : list Z) :
  len mask = node_count ->
  Forall (fun i => 0 <= i < node_count) (np_where (gt0 mask)) /\
  forall (A : Type) (t : list A),
    len t = node_count ->
    exists xs, getitem t (np_where (gt0 mask)) = Ok xs.
Proof.
  intros Hn.
  assert (Hb : Forall (fun i => 0 <= i < node_count) (np_where (gt0 mask))).
  { unfold np_where. eapply Forall_impl; [|apply where_from_bounds].
    simpl. unfold len in *. rewrite gt0_length. intros i. lia. }
  split; [exact Hb|].
  intros A t Ht. apply getitem_total.
  eapply Forall_impl; [|exact Hb].
  intros i Hi. cbv beta in Hi. unfold valid_index. lia.
Qed.

Lemma split_indices_in_bounds_witness :
  Forall (fun i => 0 <= i < 5) (np_where (gt0 [1; 0; 0; 1; 1])) /\
  exists xs, getitem [10; 11; 12; 13; 14] (np_where (gt0 [1; 0; 0; 1; 1]))
             = Ok xs.
Proof.
  destruct (split_indices_in_bounds 5 [1; 0; 0; 1; 1] eq_refl) as [H1 H2].
  split; [exact H1|].
  exact (H2 Z [10; 11; 12; 13; 14] eq_refl).
Defined.

(* ================================================================== *)
(** * Assembling the model *)

Section Assembly.

Context {Activation Params Rng : Type}.
Variable init_parameters : Z -> Z -> string -> Q -> M Rng Params.

Lemma SAGEConv_new_Ok_inv in_f out_f agg drop (act : option Activation)
    (t : Torch Rng) l t' :
  SAGEConv_new init_parameters in_f out_f agg drop act t = (Ok l, t') ->
  built_from in_f out_f agg drop act l.
Proof.
  unfold SAGEConv_new, bind, ret.
  destruct (init_parameters in_f out_f agg drop t) as [[p|e] t1];
    [|discriminate].
  intros [= <- _]. repeat split.
Qed.

Lemma SAGEConv_new_total in_f out_f agg drop (act : option Activation)
    (t : Torch Rng) :
  accepts init_parameters in_f out_f agg drop ->
  exists l t', SAGEConv_new init_parameters in_f out_f agg drop act t
               = (Ok l, t').
Proof.
  intros H. destruct (H t) as (p & t1 & Hp).
  unfold SAGEConv_new, bind, ret. rewrite Hp. now eexists; eexists.
Qed.

Lemma hidden_layers_Ok_inv k n_hidden agg drop (act : option Activation) :
  forall ls (t : Torch Rng) ls' t',
    hidden_layers init_parameters k n_hidden agg drop act ls t = (Ok ls', t')
    ->
    exists hid,
      ls' = ls ++ hid /\
      length hid = k /\
      Forall (built_from n_hidden n_hidden agg drop act) hid.
Proof.
  induction k as [|k IH]; intros ls t ls' t' H.
  - cbn [hidden_layers] in H. unfold ret in H. injection H as <- _.
    exists []. rewrite app_nil_r. repeat split. constructor.
  - cbn [hidden_layers] in H. unfold bind in H.
    destruct (SAGEConv_new init_parameters n_hidden n_hidden agg drop act t)
      as [[l|e] t1] eqn:El; [|discriminate].
    apply SAGEConv_new_Ok_inv in El.
    apply IH in H as (hid & -> & Hlen & Hall).
    exists (l :: hid). rewrite <- app_assoc. cbn [app length].
    repeat split; [now f_equal | now constructor].
Qed.

Lemma hidden_layers_total k n_hidden agg drop (act : option Activation) :
  accepts init_parameters n_hidden n_hidden agg drop ->
  forall ls (t : Torch Rng),
  exists ls' t',
    hidden_layers init_parameters k n_hidden agg drop act ls t = (Ok ls', t').
Proof.
  intros Hacc. induction k as [|k IH]; intros ls t.
  - now exists ls, t.
  - cbn [hidden_layers]. unfold bind.
    destruct (SAGEConv_new_total n_hidden n_hidden agg drop act t Hacc)
      as (l & t1 & ->).
    apply IH.
Qed.

(** The shape of the layer list of an assembled model. *)
Lemma GraphSAGEModel_init_layers in_f n_hidden out_dim n_layers
    (act : option Activation) dropout agg (t : Torch Rng) m t' :
  GraphSAGEModel_init init_parameters in_f n_hidden out_dim n_layers act
    dropout agg t = (Ok m, t') ->
  exists l_in hid l_out,
    m = {| layers := [l_in] ++ hid ++ [l_out]; gs_training := true |}
    /\ length hid = range_len (n_layers - 1)
    /\ built_from in_f n_hidden agg dropout act l_in
    /\ Forall (built_from n_hidden n_hidden agg dropout act) hid
    /\ built_from n_hidden out_dim agg dropout (@None Activation) l_out.
Proof.
  unfold GraphSAGEModel_init. unfold bind at 1.
  destruct (SAGEConv_new init_parameters in_f n_hidden agg dropout act t)
    as [[l_in|e] t1] eqn:Ein; [|discriminate].
  apply SAGEConv_new_Ok_inv in Ein. unfold bind at 1.
  destruct (hidden_layers init_parameters (range_len (n_layers - 1)) n_hidden
              agg dropout act ([] ++ [l_in]) t1) as [[ls|e] t2] eqn:Eh;
    [|discriminate].
  apply hidden_layers_Ok_inv in Eh as (hid & -> & Hlen & Hhid).
  unfold bind.
  destruct (SAGEConv_new init_parameters n_hidden out_dim agg dropout None t2)
    as [[l_out|e] t3] eqn:Eout; [|discriminate].
  apply SAGEConv_new_Ok_inv in Eout. unfold ret. intros [= <- _].
  exists l_in, hid, l_out. cbv zeta. cbn [app].
  split; [reflexivity|]. repeat (split; [assumption|]). assumption.
Qed.

(** When the constructor of the layers accepts the sizes of the layers
    that are built, the model is assembled. *)
Lemma GraphSAGEModel_init_total in_f n_hidden out_dim n_layers
    (act : option Activation) dropout agg (t : Torch Rng) :
  accepts init_parameters in_f n_hidden agg dropout ->
  (2 <= n_layers -> accepts init_parameters n_hidden n_hidden agg dropout) ->
  accepts init_parameters n_hidden out_dim agg dropout ->
  exists m t',
    GraphSAGEModel_init init_parameters in_f n_hidden out_dim n_layers act
      dropout agg t = (Ok m, t').
Proof.
  intros Hin Hhid Hout. unfold GraphSAGEModel_init. unfold bind at 1.
  destruct (SAGEConv_new_total in_f n_hidden agg dropout act t Hin)
    as (l_in & t1 & ->). unfold bind at 1.
  assert (Hh : exists ls t2,
    hidden_layers init_parameters (range_len (n_layers - 1)) n_hidden agg
      dropout act ([] ++ [l_in]) t1 = (Ok ls, t2)).
  { destruct (range_len (n_layers - 1)) as [|k] eqn:Ek.
    - now eexists; eexists.
    - apply hidden_layers_total, Hhid. unfold range_len in Ek. lia. }
  destruct Hh as (ls & t2 & ->).
  unfold bind.
  destruct (SAGEConv_new_total n_hidden out_dim agg dropout None t2 Hout)
    as (l_out & t3 & ->).
  unfold ret. now eexists; eexists.
Qed.

(** ** C3 *)

(** C3. For a layer count [n_layers >= 1], the model that
    [GraphSAGEModel.__init__] assembles holds exactly [n_layers + 1] layers
    in its layer list: one input layer, [n_layers - 1] hidden layers and one
    output layer.  Every assembled model does; and a model is assembled
    whenever the constructor of the layers accepts the sizes, the
    aggregator type and the dropout rate. *)
Theorem GraphSAGEModel_init_layer_count in_f n_hidden out_dim n_layers
    (act : option Activation) dropout agg (t : Torch Rng) :
  1 <= n_layers ->
  (forall m t',
      GraphSAGEModel_init init_parameters in_f n_hidden out_dim n_layers act
        dropout agg t = (Ok m, t') ->
      len (layers m) = n_layers + 1 /\
      exists l_in hid l_out,
        layers m = [l_in] ++ hid ++ [l_out] /\
        len hid = n_layers - 1 /\
        built_from in_f n_hidden agg dropout act l_in /\
        Forall (built_from n_hidden n_hidden agg dropout act) hid /\
        built_from n_hidden out_dim agg dropout (@None Activation) l_out) /\
  (accepts init_parameters in_f n_hidden agg dropout ->
   (2 <= n_layers ->
    accepts init_parameters n_hidden n_hidden agg dropout) ->
   accepts init_parameters n_hidden out_dim agg dropout ->
   exists m t',
     GraphSAGEModel_init init_parameters in_f n_hidden out_dim n_layers act
       dropout agg t = (Ok m, t') /\
     len (layers m) = n_layers + 1).
Proof.
  intros Hn.
  assert (Hcount : forall m t',
    GraphSAGEModel_init init_parameters in_f n_hidden out_dim n_layers act
      dropout agg t = (Ok m, t') ->
    len (layers m) = n_layers + 1 /\
    exists l_in hid l_out,
      layers m = [l_in] ++ hid ++ [l_out] /\
      len hid = n_layers - 1 /\
      built_from in_f n_hidden agg dropout act l_in /\
      Forall (built_from n_hidden n_hidden agg dropout act) hid /\
      built_from n_hidden out_dim agg dropout (@None Activation) l_out).
  { intros m t' H.
    apply GraphSAGEModel_init_layers in H
      as (l_in & hid & l_out & -> & Hlen & Hin & Hhid & Hout).
    assert (Hh : len hid = n_layers - 1).
    { unfold len, range_len in *. rewrite Hlen. lia. }
    cbn [layers]. split.
    - unfold len in *. rewrite !length_app. cbn [length]. lia.
    - now exists l_in, hid, l_out. }
  split; [exact Hcount|].
  intros Hin Hhid Hout.
  destruct (GraphSAGEModel_init_total in_f n_hidden out_dim n_layers act
              dropout agg t Hin Hhid Hout) as (m & t' & H).
  exists m, t'. split; [exact H|]. now apply (Hcount m t').
Qed.

(** ** C6, as the code has it *)

(** C6 (amended). The layer list of an assembled model is one input layer
    from [in_feats] to [n_hidden] with the given activation, then
    [n_layers - 1] hidden layers that agree with one another (from
    [n_hidden] to [n_hidden], the given activation), then one output layer
    from [n_hidden] to [out_dim] with no activation; every layer has the
    given aggregator type and dropout rate.  Every assembled model is so;
    and a model is assembled whenever the constructor of the layers accepts
    the sizes, the aggregator type and the dropout rate. *)
Theorem GraphSAGEModel_init_layer_shapes in_f n_hidden out_dim n_layers
    (act : option Activation) dropout agg (t : Torch Rng) :
  (forall m t',
      GraphSAGEModel_init init_parameters in_f n_hidden out_dim n_layers act
        dropout agg t = (Ok m, t') ->
      exists l_in hid l_out,
        layers m = [l_in] ++ hid ++ [l_out] /\
        length hid = range_len (n_layers - 1) /\
        (in_feats l_in = in_f /\ out_feats l_in = n_hidden /\
         activation l_in = act) /\
        Forall (fun l => in_feats l = n_hidden /\ out_feats l = n_hidden /\
                         activation l = act) hid /\
        identical_layers hid /\
        (in_feats l_out = n_hidden /\ out_feats l_out = out_dim /\
         activation l_out = None) /\
        Forall (fun l => aggregator_type l = agg /\ feat_drop l = dropout)
          (layers m)) /\
  (accepts init_parameters in_f n_hidden agg dropout ->
   (2 <= n_layers ->
    accepts init_parameters n_hidden n_hidden agg dropout) ->
   accepts init_parameters n_hidden out_dim agg dropout ->
   exists m t',
     GraphSAGEModel_init init_parameters in_f n_hidden out_dim n_layers act
       dropout agg t = (Ok m, t')).
Proof.
  split; [|apply GraphSAGEModel_init_total].
  intros m t' H.
  apply GraphSAGEModel_init_layers in H
    as (l_in & hid & l_out & -> & Hlen & Hin & Hhid & Hout).
  exists l_in, hid, l_out. cbn [layers].
  split; [reflexivity|]. split; [exact Hlen|].
  unfold built_from in *.
  split; [tauto|]. split.
  { eapply Forall_impl; [|exact Hhid]. cbv beta. tauto. }
  split.
  { intros l1 l2 H1 H2. rewrite Forall_forall in Hhid.
    destruct (Hhid _ H1) as (-> & -> & _ & _ & ->).
    destruct (Hhid _ H2) as (-> & -> & _ & _ & ->). auto. }
  split; [tauto|].
  apply Forall_app. split; [constructor; [tauto|constructor]|].
  apply Forall_app. split.
  - eapply Forall_impl; [|exact Hhid]. cbv beta. tauto.
  - constructor; [tauto|constructor].
Qed.

End Assembly.

(** The constructor of the small instance accepts the sizes of the
    notebook. *)
Lemma demo_accepts in_f out_f agg :
  0 <= in_f -> 0 <= out_f ->
  accepts Demo.init_weights in_f out_f agg (1 # 2).
Proof.
  intros Hi Ho t. unfold Demo.init_weights.
  replace ((in_f <? 0) || (out_f <? 0)) with false.
  - now eexists; eexists.
  - symmetry. apply orb_false_iff. split; apply Z.ltb_ge; assumption.
Defined.

Lemma GraphSAGEModel_init_layer_count_witness :
  exists m t',
    GraphSAGEModel_init Demo.init_weights 500 64 3 2 (Some Demo.relu) (1 # 2)
      "gcn" Demo.torch0 = (Ok m, t') /\
    len (layers m) = 3.
Proof.
  assert (Hn : 1 <= 2) by lia.
  apply (proj2 (GraphSAGEModel_init_layer_count Demo.init_weights 500 64 3 2
                  (Some Demo.relu) (1 # 2) "gcn" Demo.torch0 Hn));
    [apply demo_accepts; lia
    |intros _; apply demo_accepts; lia
    |apply demo_accepts; lia].
Defined.

Lemma GraphSAGEModel_init_layer_shapes_witness :
  exists m t',
    GraphSAGEModel_init Demo.init_weights 500 64 3 2 (Some Demo.relu) (1 # 2)
      "gcn" Demo.torch0 = (Ok m, t').
Proof.
  apply (proj2 (GraphSAGEModel_init_layer_shapes Demo.init_weights 500 64 3
                  2 (Some Demo.relu) (1 # 2) "gcn" Demo.torch0));
    [apply demo_accepts; lia
    |intros _; apply demo_accepts; lia
    |apply demo_accepts; lia].
Defined.

(** With [n_layers = 0] the loop does not run and two layers remain. *)
Example GraphSAGEModel_init_no_hidden_layer :
  exists m t',
    GraphSAGEModel_init Demo.init_weights 500 64 3 0 (Some Demo.relu) (1 # 2)
      "gcn" Demo.torch0 = (Ok m, t') /\
    len (layers m) = 2.
Proof. eexists. eexists. split; [cbv; reflexivity|reflexivity]. Qed.

(** A dropout rate of 1.5 is refused by the first layer, and so is a
    negative number of input features. *)
Example GraphSAGEModel_init_refused :
  GraphSAGEModel_init Demo.init_weights 500 64 3 2 (Some Demo.relu) (3 # 2)
    "gcn" Demo.torch0 = (Raise ValueError, Demo.torch0) /\
  GraphSAGEModel_init Demo.init_weights (-5) 64 3 2 (Some Demo.relu) (1 # 2)
    "gcn" Demo.torch0 = (Raise RuntimeError, Demo.torch0).
Proof. split; reflexivity. Qed.

(** C6 as stated fails on the model of the notebook: its first layer takes
    500 inputs and its second takes 64. *)
Lemma notebook_layers_not_identical :
  exists m t',
    Demo.notebook_model = (Ok m, t') /\ ~ identical_layers (layers m).
Proof.
  eexists. eexists. split; [cbv; reflexivity|].
  intros H.
  specialize (H (mkSAGEConv 500 64 "gcn"%string (1 # 2) (Some Demo.relu) 0 true)
                (mkSAGEConv 64 64 "gcn"%string (1 # 2) (Some Demo.relu) 1 true)).
  cbn in H. destruct H as [H _]; [now left | now right; left | discriminate H].
Qed.

(* ================================================================== *)
(** * Evaluation *)

Section Evaluation.

Context {score : Type}.
Variable score_ltb : score -> score -> bool.

(** What [NCEvaluate] computes from the output of the model. *)
Local Abbreviation accuracy_of logits labels idx :=
  (rows <- getitem logits idx ;;
   test_labels <- getitem labels idx ;;
   vi <- torch_max_dim1 score_ltb rows ;;
   eqs <- tensor_eq (snd vi) test_labels ;;
   py_truediv (inject_Z (tensor_sum eqs) * 1) (len test_labels))%result.

Lemma tensor_eq_same_length a b :
  length a = length b ->
  tensor_eq a b = Ok (map (fun p => fst p =? snd p) (combine a b)).
Proof.
  intros H. unfold tensor_eq. now rewrite H, Nat.eqb_refl.
Qed.

Lemma tensor_sum_bounds l : 0 <= tensor_sum l <= len l.
Proof.
  unfold len. induction l as [|b l IH]; cbn [tensor_sum length]; [lia|].
  destruct b; lia.
Qed.

(** The comparisons of the predictions with the labels count the
    correctly classified indices. *)
Lemma correct_count (logits : list (list score)) (labels : list Z) idx :
  forall rows ys ps,
    getitem logits idx = Ok rows ->
    getitem labels idx = Ok ys ->
    mapM (row_max score_ltb) rows = Ok ps ->
    tensor_sum (map (fun p => fst p =? snd p) (combine (map snd ps) ys))
    = len (filter (hit score_ltb logits labels) idx).
Proof.
  unfold getitem, len.
  induction idx as [|i idx IH]; intros rows ys ps Hr Hy Hp.
  - simpl in Hr. injection Hr as <-. simpl in Hp. injection Hp as <-.
    reflexivity.
  - apply mapM_Ok_cons in Hr as (row & rows' & Hrow & Hr & ->).
    apply mapM_Ok_cons in Hy as (y & ys' & Hlab & Hy & ->).
    apply mapM_Ok_cons in Hp as (p & ps' & Hmax & Hp & ->).
    cbn [map combine tensor_sum filter fst snd].
    rewrite (IH rows' ys' ps' Hr Hy Hp).
    unfold hit at 2. rewrite Hrow, Hlab.
    unfold prediction. rewrite Hmax. cbn [rbind snd].
    destruct (snd p =? y); cbn [length]; lia.
Qed.

Lemma filter_length_le {A : Type} (f : A -> bool) l :
  (length (filter f l) <= length l)%nat.
Proof.
  induction l as [|a l IH]; simpl; [lia|]. destruct (f a); simpl; lia.
Qed.

Lemma hit_rate_bounds (logits : list (list score)) labels idx :
  idx <> [] ->
  (0 <= hit_rate score_ltb logits labels idx <= 1)%Q.
Proof.
  intros Hne. unfold hit_rate.
  assert (Hpos : (0 < inject_Z (len idx))%Q).
  { unfold len. replace 0%Q with (inject_Z 0) by reflexivity.
    rewrite <- Zlt_Qlt. destruct idx; [congruence|]. simpl length. lia. }
  split.
  - apply Qle_shift_div_l; [exact Hpos|]. rewrite Qmult_0_l.
    replace 0%Q with (inject_Z 0) by reflexivity.
    rewrite <- Zle_Qle. unfold len. lia.
  - apply Qle_shift_div_r; [exact Hpos|]. rewrite Qmult_1_l.
    rewrite <- Zle_Qle. unfold len.
    apply inj_le, filter_length_le.
Qed.

(** A returned accuracy is the top-1 accuracy, and the index set was
    not empty. *)
Lemma accuracy_of_Ok (logits : list (list score)) labels idx acc :
  accuracy_of logits labels idx = Ok acc ->
  idx <> [] /\
  (acc == hit_rate score_ltb logits labels idx)%Q.
Proof.
  destruct (getitem logits idx) as [rows|e] eqn:Hr; [|discriminate].
  destruct (getitem labels idx) as [ys|e] eqn:Hy; [|discriminate].
  cbn [rbind]. unfold torch_max_dim1.
  destruct (mapM (row_max score_ltb) rows) as [ps|e] eqn:Hp; [|discriminate].
  cbn [rbind snd].
  assert (Hlr : length rows = length idx) by (eapply mapM_Ok_length; eauto).
  assert (Hly : length ys = length idx) by (eapply mapM_Ok_length; eauto).
  assert (Hlp : length ps = length rows) by (eapply mapM_Ok_length; eauto).
  rewrite tensor_eq_same_length by (rewrite length_map; congruence).
  cbn [rbind]. unfold py_truediv.
  destruct (Z.eqb_spec (len ys) 0) as [|Hnz]; [discriminate|].
  intros H. injection H as <-. split.
  - unfold len in Hnz. intros ->. simpl in Hly. lia.
  - rewrite (correct_count logits labels idx rows ys ps Hr Hy Hp).
    unfold hit_rate, len. rewrite Hly, Qmult_1_r. reflexivity.
Qed.

(** On a non-empty set of valid indices the accuracy is returned. *)
Lemma accuracy_of_total (logits : list (list score)) labels idx :
  idx <> [] ->
  Forall (valid_index (len logits)) idx ->
  Forall (valid_index (len labels)) idx ->
  Forall (fun row => row <> []) logits ->
  exists acc, accuracy_of logits labels idx = Ok acc.
Proof.
  intros Hne Hvl Hvy Hrows.
  destruct (getitem_total logits idx Hvl) as [rows Hr].
  destruct (getitem_total labels idx Hvy) as [ys Hy].
  rewrite Hr, Hy. cbn [rbind].
  assert (Hin : Forall (fun row => row <> []) rows).
  { clear - Hr Hrows. unfold getitem in Hr. revert rows Hr.
    induction idx as [|i idx IH]; intros rows Hr.
    - simpl in Hr. injection Hr as <-. constructor.
    - apply mapM_Ok_cons in Hr as (row & rows' & Hrow & Hr & ->).
      constructor; [|now apply IH].
      unfold py_index in Hrow.
      destruct (_ && _); [|discriminate].
      destruct (nth_error logits _) eqn:E; [|discriminate].
      injection Hrow as <-. apply nth_error_In in E.
      rewrite Forall_forall in Hrows. now apply Hrows. }
  destruct (mapM_total (row_max score_ltb) rows) as [ps Hp].
  { eapply Forall_impl; [|exact Hin]. intros [|x row] Hrow; [congruence|].
    eexists. reflexivity. }
  unfold torch_max_dim1. rewrite Hp. cbn [rbind snd].
  assert (Hlr : length rows = length idx) by (eapply mapM_Ok_length; eauto).
  assert (Hly : length ys = length idx) by (eapply mapM_Ok_length; eauto).
  assert (Hlp : length ps = length rows) by (eapply mapM_Ok_length; eauto).
  rewrite tensor_eq_same_length by (rewrite length_map; congruence).
  cbn [rbind]. unfold py_truediv.
  destruct (Z.eqb_spec (len ys) 0) as [Hz|Hnz]; [|eexists; reflexivity].
  unfold len in Hz. destruct idx; [congruence|]. simpl in Hly. lia.
Qed.

(** On the empty index set the division raises. *)
Lemma accuracy_of_nil (logits : list (list score)) labels :
  accuracy_of logits labels [] = Raise ZeroDivisionError.
Proof. reflexivity. Qed.

(** ** [NCEvaluate] *)

Context {Graph Activation Params Rng : Type}.
Variable SAGEConv_forward :
  SAGEConv Activation Params -> Graph -> tensor2 score ->
  M Rng (tensor2 score).

(** The output of the model as [NCEvaluate] computes it: in evaluation
    mode and with gradient tracking switched off. *)
Local Abbreviation eval_logits model g features t :=
  (GraphSAGEModel_forward SAGEConv_forward
     (gconv_model (NodeClassification_eval model)) g features
     (set_grad_enabled false t)).

Local Abbreviation evaluate model g features labels idx t :=
  (NCEvaluate score_ltb SAGEConv_forward model g features labels idx t).

Lemma NCEvaluate_body_eq (model : NodeClassification Activation Params)
    (g : Graph) features labels idx (t : Torch Rng) :
  NCEvaluate_body score_ltb SAGEConv_forward model g features labels idx t
  = match GraphSAGEModel_forward SAGEConv_forward (gconv_model model) g
            features t with
    | (Ok logits, t1) => (accuracy_of logits labels idx, t1)
    | (Raise e, t1) => (Raise e, t1)
    end.
Proof.
  unfold NCEvaluate_body, bind, lift.
  destruct (GraphSAGEModel_forward _ _ _ _ _) as [[logits|e] t1];
    [|reflexivity].
  destruct (getitem logits idx) as [rows|e]; [|reflexivity].
  destruct (getitem labels idx) as [ys|e]; [|reflexivity].
  cbn [rbind].
  destruct (torch_max_dim1 score_ltb rows) as [vi|e]; [|reflexivity].
  cbn [rbind].
  destruct (tensor_eq (snd vi) ys) as [eqs|e]; reflexivity.
Qed.

Lemma NCEvaluate_eq (model : NodeClassification Activation Params)
    (g : Graph) features labels idx (t : Torch Rng) :
  evaluate model g features labels idx t
  = (NodeClassification_eval model,
     match eval_logits model g features t with
     | (Ok logits, t1) =>
         (accuracy_of logits labels idx,
          set_grad_enabled (grad_enabled t) t1)
     | (Raise e, t1) => (Raise e, set_grad_enabled (grad_enabled t) t1)
     end).
Proof.
  unfold NCEvaluate, no_grad. rewrite NCEvaluate_body_eq.
  destruct (GraphSAGEModel_forward _ _ _ _ _) as [[logits|e] t1];
    reflexivity.
Qed.

(** A returned accuracy is the top-1 accuracy of the evaluation-mode
    output of the model. *)
Lemma NCEvaluate_Ok_inv (model : NodeClassification Activation Params)
    (g : Graph) features labels idx (t : Torch Rng) acc t' :
  snd (evaluate model g features labels idx t) = (Ok acc, t') ->
  exists logits t1,
    eval_logits model g features t = (Ok logits, t1) /\
    idx <> [] /\
    (acc == hit_rate score_ltb logits labels idx)%Q.
Proof.
  rewrite NCEvaluate_eq. cbn [snd].
  destruct (GraphSAGEModel_forward _ _ _ _ _) as [[logits|e] t1];
    [|discriminate].
  intros H. injection H as H _.
  apply accuracy_of_Ok in H as [Hne Hacc].
  now exists logits, t1.
Qed.

(** When the model returns its output and the index set is a non-empty
    set of valid indices, [NCEvaluate] returns. *)
Lemma NCEvaluate_total (model : NodeClassification Activation Params)
    (g : Graph) features labels idx (t : Torch Rng) logits t1 :
  eval_logits model g features t = (Ok logits, t1) ->
  idx <> [] ->
  Forall (valid_index (len logits)) idx ->
  Forall (valid_index (len labels)) idx ->
  Forall (fun row => row <> []) logits ->
  exists acc t',
    snd (evaluate model g features labels idx t) = (Ok acc, t').
Proof.
  intros Hfw Hne Hvl Hvy Hrows.
  rewrite NCEvaluate_eq. cbn [snd]. rewrite Hfw.
  destruct (accuracy_of_total logits labels idx Hne Hvl Hvy Hrows)
    as [acc ->].
  now eexists; eexists.
Qed.

(** ** C4 *)

(** C4. For a non-empty index set, the accuracy that [NCEvaluate] returns
    lies between 0 and 1: every returned value does, and a value is
    returned under the conditions of C1. *)
Theorem NCEvaluate_accuracy_range
    (model : NodeClassification Activation Params)
    (g : Graph) features labels test_idx (t : Torch Rng) :
  test_idx <> [] ->
  (forall acc t',
      snd (evaluate model g features labels test_idx t) = (Ok acc, t') ->
      (0 <= acc <= 1)%Q) /\
  (forall logits t1,
      eval_logits model g features t = (Ok logits, t1) ->
      Forall (valid_index (len logits)) test_idx ->
      Forall (valid_index (len labels)) test_idx ->
      Forall (fun row => row <> []) logits ->
      exists acc t',
        snd (evaluate model g features labels test_idx t) = (Ok acc, t') /\
        (0 <= acc <= 1)%Q).
Proof.
  intros Hne.
  assert (Hrange : forall acc t',
    snd (evaluate model g features labels test_idx t) = (Ok acc, t') ->
    (0 <= acc <= 1)%Q).
  { intros acc t' H.
    apply NCEvaluate_Ok_inv in H as (logits & t1 & _ & _ & Hacc).
    rewrite Hacc. now apply hit_rate_bounds. }
  split; [exact Hrange|].
  intros logits t1 Hfw Hvl Hvy Hrows.
  destruct (NCEvaluate_total model g features labels test_idx t logits t1
              Hfw Hne Hvl Hvy Hrows) as (acc & t' & H).
  exists acc, t'. split; [exact H|]. now apply (Hrange acc t').
Qed.

(** ** C5 *)

Lemma eval_parameters (model : NodeClassification Activation Params) :
  parameters (NodeClassification_eval model) = parameters model.
Proof.
  unfold parameters, NodeClassification_eval, NodeClassification_train,
    GraphSAGEModel_train.
  cbn [gconv_model layers]. rewrite map_map. apply map_ext.
  intros l. reflexivity.
Qed.

(** C5. [NCEvaluate] leaves the parameters of the model as they were:
    the weights of every layer of the model object after the call are
    those before the call, whether the call returns or raises. *)
Theorem NCEvaluate_preserves_parameters
    (model : NodeClassification Activation Params)
    (g : Graph) features labels test_idx (t : Torch Rng) :
  parameters (fst (evaluate model g features labels test_idx t))
  = parameters model.
Proof.
  unfold NCEvaluate. cbn [fst]. apply eval_parameters.
Qed.

(** ** C10 *)

(** C10. On the empty index set [NCEvaluate] returns no accuracy: it
    raises.  When the model returns an output that has a row with at least
    one class, what is raised is the [ZeroDivisionError] of the final
    division by the length of the sliced labels; when the model raises, it
    is the exception of the model. *)
Theorem NCEvaluate_empty_index_set
    (model : NodeClassification Activation Params)
    (g : Graph) features labels (t : Torch Rng) :
  exists e t',
    snd (evaluate model g features labels [] t) = (Raise e, t') /\
    match eval_logits model g features t with
    | (Ok logits, _) =>
        Exists (fun row => row <> []) logits -> e = ZeroDivisionError
    | (Raise e', _) => e = e'
    end.
Proof.
  rewrite NCEvaluate_eq. cbn [snd].
  destruct (GraphSAGEModel_forward _ _ _ _ _) as [[logits|e] t1].
  - rewrite accuracy_of_nil. eexists; eexists. split; reflexivity.
  - eexists; eexists. split; reflexivity.
Qed.

End Evaluation.

Lemma NCEvaluate_accuracy_range_witness :
  exists acc t',
    snd (NCEvaluate Z.ltb Demo.shift_forward Demo.model0 tt Demo.features0
           Demo.labels0 [0; -1] Demo.torch0) = (Ok acc, t') /\
    (0 <= acc <= 1)%Q.
Proof.
  assert (Hne : [0; -1] <> []) by discriminate.
  destruct (NCEvaluate_accuracy_range Z.ltb Demo.shift_forward Demo.model0 tt
              Demo.features0 Demo.labels0 [0; -1] Demo.torch0 Hne)
    as [_ H].
  apply (H Demo.features0 (mkTorch false 0) eq_refl).
  - repeat constructor; unfold valid_index; simpl; lia.
  - repeat constructor; unfold valid_index; simpl; lia.
  - repeat constructor; discriminate.
Defined.

Lemma NCEvaluate_empty_index_set_witness :
  exists t',
    snd (NCEvaluate Z.ltb Demo.shift_forward Demo.model0 tt Demo.features0
           Demo.labels0 [] Demo.torch0) = (Raise ZeroDivisionError, t').
Proof.
  destruct (NCEvaluate_empty_index_set Z.ltb Demo.shift_forward Demo.model0
              tt Demo.features0 Demo.labels0 Demo.torch0)
    as (e & t' & H & He).
  assert (He' : Exists (fun row => row <> []) Demo.features0 ->
                e = ZeroDivisionError) by exact He.
  exists t'. rewrite H, He'; [reflexivity|].
  apply Exists_cons_hd. discriminate.
Defined.

(** The notebook's evaluation on three nodes: two of three predictions are
    right; on no node at all the division raises. *)
Example NCEvaluate_demo :
  snd (NCEvaluate Z.ltb Demo.shift_forward Demo.model0 tt Demo.features0
         Demo.labels0 [0; 1; 2] Demo.torch0) = (Ok (2 # 3), Demo.torch0) /\
  snd (NCEvaluate Z.ltb Demo.shift_forward Demo.model0 tt Demo.features0
         Demo.labels0 [] Demo.torch0)
  = (Raise ZeroDivisionError, Demo.torch0).
Proof. split; reflexivity. Qed.

(* ================================================================== *)
(** * The loss wrapper *)

Section Forward.

Context {Graph score Activation Params Rng lossT : Type}.
Variable SAGEConv_forward :
  SAGEConv Activation Params -> Graph -> tensor2 score ->
  M Rng (tensor2 score).
Variable cross_entropy : tensor2 score -> list Z -> result lossT.

Local Abbreviation forward labels self g features idx t :=
  (NodeClassification_forward SAGEConv_forward cross_entropy labels self g
     features idx t).

Local Abbreviation model_output self g features t :=
  (GraphSAGEModel_forward SAGEConv_forward (gconv_model self) g features t).


Lemma NodeClassification_forward_eq labels
    (self : NodeClassification Activation Params) (g : Graph) features idx
    (t : Torch Rng) :
  forward labels self g features idx t
  = match model_output self g features t with
    | (Ok logits, t1) =>
        ((a <- getitem logits idx ;;
          b <- getitem labels idx ;;
          cross_entropy a b)%result, t1)
    | (Raise e, t1) => (Raise e, t1)
    end.
Proof.
  unfold NodeClassification_forward, bind, lift.
  destruct (GraphSAGEModel_forward _ _ _ _ _) as [[logits|e] t1];
    [|reflexivity].
  destruct (getitem logits idx) as [a|e]; [|reflexivity].
  destruct (getitem labels idx) as [b|e]; [|reflexivity].
  destruct (loss_fcn self). reflexivity.
Qed.

(** ** C2 *)


(** ** C9 *)

(** C9. The arguments [n_hidden] and [n_classes] of
    [NodeClassification.__init__] are not stored: two instances built from
    the same [gconv_model] with any two pairs of these arguments are the
    same object, and [forward] gives the same outcome on every input and
    framework state. *)
Theorem NodeClassification_init_ignores_sizes
    (gconv : GraphSAGEModel Activation Params)
    (n_hidden1 n_classes1 n_hidden2 n_classes2 : Z) :
  NodeClassification_init gconv n_hidden1 n_classes1
  = NodeClassification_init gconv n_hidden2 n_classes2 /\
  forall labels (g : Graph) features train_idx (t : Torch Rng),
    forward labels (NodeClassification_init gconv n_hidden1 n_classes1) g
      features train_idx t
    = forward labels (NodeClassification_init gconv n_hidden2 n_classes2) g
        features train_idx t.
Proof.
  split; [reflexivity|]. intros. reflexivity.
Qed.

End Forward.

(* ================================================================== *)
(** * The loss is not negative *)

Section LossBound.

Import RealLoss.
Local Open Scope R_scope.

Lemma sum_exp_nonneg row : 0 <= sum_exp row.
Proof.
  induction row as [|x row IH]; simpl; [lra|].
  pose proof (exp_pos x). lra.
Qed.

Lemma exp_nth_le_sum_exp row :
  forall n, (n < length row)%nat -> exp (nth n row 0) <= sum_exp row.
Proof.
  induction row as [|x row IH]; intros n Hn; simpl in Hn; [lia|].
  destruct n as [|n]; simpl.
  - pose proof (sum_exp_nonneg row). lra.
  - pose proof (exp_pos x). assert (Hn' : (n < length row)%nat) by lia.
    specialize (IH n Hn'). lra.
Qed.

Lemma ln_sum_exp_ge row n :
  (n < length row)%nat -> nth n row 0 <= ln (sum_exp row).
Proof.
  intros Hn. pose proof (exp_nth_le_sum_exp row n Hn) as Hle.
  pose proof (exp_pos (nth n row 0)) as Hpos.
  rewrite <- (ln_exp (nth n row 0)) at 1.
  destruct Hle as [Hlt|Heq].
  - left. now apply ln_increasing.
  - rewrite Heq. right. reflexivity.
Qed.

Lemma nll_term_nonneg row y v : nll_term (row, y) = Ok (Some v) -> 0 <= v.
Proof.
  unfold nll_term.
  destruct (y =? ignore_index)%Z; [discriminate|].
  destruct ((0 <=? y) && (y <? len row))%Z eqn:E; [|discriminate].
  intros H. injection H as <-.
  apply andb_true_iff in E as [E1 E2].
  apply Z.leb_le in E1. apply Z.ltb_lt in E2. unfold len in E2.
  assert (Hn : (Z.to_nat y < length row)%nat) by lia.
  pose proof (ln_sum_exp_ge row (Z.to_nat y) Hn). lra.
Qed.

Lemma nll_term_class row y :
  class_of row y ->
  nll_term (row, y) = Ok (Some (ln (sum_exp row) - nth (Z.to_nat y) row 0)).
Proof.
  unfold class_of, nll_term, ignore_index. intros Hy.
  destruct (Z.eqb_spec y (-100)); [lia|].
  replace ((0 <=? y) && (y <? len row))%Z with true; [reflexivity|].
  symmetry. apply andb_true_iff. split; [apply Z.leb_le|apply Z.ltb_lt]; lia.
Qed.

Lemma kept_nonneg l :
  forall terms, mapM nll_term l = Ok terms -> Forall (Rle 0) (kept terms).
Proof.
  induction l as [|[row y] l IH]; intros terms H.
  - simpl in H. injection H as <-. constructor.
  - apply mapM_Ok_cons in H as (o & terms' & Ho & Hl & ->).
    destruct o as [v|]; cbn [kept]; [constructor|]; auto.
    now apply (nll_term_nonneg row y).
Qed.

Lemma Rsum_nonneg l : Forall (Rle 0) l -> 0 <= Rsum l.
Proof.
  induction 1 as [|x l Hx _ IH]; simpl; lra.
Qed.

(** A number that the cross-entropy returns is not negative. *)
Lemma cross_entropy_nonneg input target r :
  cross_entropy input target = Ok (Finite r) -> 0 <= r.
Proof.
  unfold cross_entropy.
  destruct (length input =? length target)%nat; [|discriminate].
  destruct (mapM nll_term (combine input target)) as [terms|e] eqn:E;
    [|discriminate].
  cbn [rbind]. pose proof (kept_nonneg _ _ E) as Hk.
  destruct (kept terms) as [|x rest]; [discriminate|].
  intros H. injection H as <-.
  apply Rsum_nonneg in Hk.
  assert (Hpos : 0 < INR (length (x :: rest))).
  { apply lt_0_INR. simpl. lia. }
  unfold Rdiv. apply Rmult_le_pos; [exact Hk|].
  left. now apply Rinv_0_lt_compat.
Qed.

(** On targets that are classes of their rows, every sample is kept. *)
Lemma nll_terms_classes (logits : list (list R)) labels idx :
  forall rows ys,
    getitem logits idx = Ok rows ->
    getitem labels idx = Ok ys ->
    Forall (fun i => exists row y,
                py_index logits i = Ok row /\ py_index labels i = Ok y /\
                class_of row y) idx ->
    exists vs,
      mapM nll_term (combine rows ys) = Ok (map Some vs) /\
      length vs = length idx.
Proof.
  unfold getitem.
  induction idx as [|i idx IH]; intros rows ys Hr Hy Hall.
  - simpl in Hr, Hy. injection Hr as <-. injection Hy as <-.
    now exists [].
  - apply mapM_Ok_cons in Hr as (row & rows' & Hrow & Hr & ->).
    apply mapM_Ok_cons in Hy as (y & ys' & Hlab & Hy & ->).
    inversion Hall as [|? ? (row' & y' & Hrow' & Hlab' & Hc) Hall']; subst.
    rewrite Hrow in Hrow'. injection Hrow' as <-.
    rewrite Hlab in Hlab'. injection Hlab' as <-.
    destruct (IH rows' ys' Hr Hy Hall') as (vs & Hvs & Hlen).
    exists ((ln (sum_exp row) - nth (Z.to_nat y) row 0) :: vs).
    cbn [combine mapM]. rewrite (nll_term_class row y Hc), Hvs.
    cbn [rbind map length]. split; [reflexivity|]. now f_equal.
Qed.

Lemma kept_map_Some vs : kept (map Some vs) = vs.
Proof. induction vs as [|v vs IH]; simpl; [reflexivity|now f_equal]. Qed.

Context {Graph Activation Params Rng : Type}.
Variable SAGEConv_forward :
  SAGEConv Activation Params -> Graph -> tensor2 R -> M Rng (tensor2 R).

Local Abbreviation forward labels self g features idx t :=
  (NodeClassification_forward SAGEConv_forward cross_entropy labels self g
     features idx t).

Local Abbreviation model_output self g features t :=
  (GraphSAGEModel_forward SAGEConv_forward (gconv_model self) g features t).

(** ** C8 *)

(** C8 (amended). On real-valued scores, for a non-empty training index
    set every number that [NodeClassification.forward] returns as the
    cross-entropy loss is at least 0; and it returns a number when the model
    returns its output and every index of the set indexes an output row and
    a label that is a class of that row. *)
Theorem NodeClassification_forward_loss_nonneg labels
    (self : NodeClassification Activation Params) (g : Graph) features
    train_idx (t : Torch Rng) :
  train_idx <> [] ->
  (forall r t',
      forward labels self g features train_idx t = (Ok (Finite r), t') ->
      0 <= r) /\
  (forall logits t1,
      model_output self g features t = (Ok logits, t1) ->
      Forall (fun i => exists row y,
                  py_index logits i = Ok row /\ py_index labels i = Ok y /\
                  class_of row y) train_idx ->
      exists r,
        forward labels self g features train_idx t = (Ok (Finite r), t1) /\
        0 <= r).
Proof.
  intros Hne.
  assert (Hfw : forall t0,
    forward labels self g features train_idx t0
    = match model_output self g features t0 with
      | (Ok logits, t1) =>
          ((a <- getitem logits train_idx ;;
            b <- getitem labels train_idx ;;
            cross_entropy a b)%result, t1)
      | (Raise e, t1) => (Raise e, t1)
      end).
  { intros t0. apply NodeClassification_forward_eq. }
  assert (Hpos : forall r t',
    forward labels self g features train_idx t = (Ok (Finite r), t') ->
    0 <= r).
  { intros r t'. rewrite Hfw.
    destruct (GraphSAGEModel_forward _ _ _ _ _) as [[logits|e] t1];
      [|discriminate].
    destruct (getitem logits train_idx) as [a|e]; [|discriminate].
    destruct (getitem labels train_idx) as [b|e]; [|discriminate].
    cbn [rbind]. intros H. injection H as H _.
    now apply (cross_entropy_nonneg a b). }
  split; [exact Hpos|].
  intros logits t1 Hout Hall.
  assert (Hex : exists r,
    forward labels self g features train_idx t = (Ok (Finite r), t1)).
  { rewrite Hfw, Hout.
    destruct (getitem_total logits train_idx) as [rows Hr].
    { eapply Forall_impl; [|exact Hall].
      intros i (row & _ & Hrow & _). now apply py_index_Ok_valid in Hrow. }
    destruct (getitem_total labels train_idx) as [ys Hy].
    { eapply Forall_impl; [|exact Hall].
      intros i (_ & y & _ & Hlab & _). now apply py_index_Ok_valid in Hlab. }
    rewrite Hr, Hy. cbn [rbind].
    destruct (nll_terms_classes logits labels train_idx rows ys Hr Hy Hall)
      as (vs & Hvs & Hlen).
    unfold cross_entropy.
    assert (Hl : length rows = length ys).
    { unfold getitem in Hr, Hy.
      rewrite (mapM_Ok_length _ _ _ Hr), (mapM_Ok_length _ _ _ Hy).
      reflexivity. }
    rewrite Hl, Nat.eqb_refl, Hvs. cbn [rbind]. rewrite kept_map_Some.
    destruct vs as [|v vs].
    - destruct train_idx; [congruence|discriminate Hlen].
    - eexists. reflexivity. }
  destruct Hex as [r Hr]. exists r. split; [exact Hr|].
  now apply (Hpos r t1).
Qed.

End LossBound.


(** C8 as stated fails on a label vector that holds the ignore index of
    the loss: the one sample is skipped, and the mean over no sample is not
    a number. *)
Lemma NodeClassification_forward_loss_nan :
  NodeClassification_forward Demo.shift_forward_R RealLoss.cross_entropy
    [-100] Demo.modelR tt Demo.featuresR [0] Demo.torch0
  = (Ok RealLoss.NaN, Demo.torch0) /\
  ~ (exists r t',
        NodeClassification_forward Demo.shift_forward_R
          RealLoss.cross_entropy [-100] Demo.modelR tt Demo.featuresR [0]
          Demo.torch0 = (Ok (RealLoss.Finite r), t') /\
        (0 <= r)%R).
Proof.
  assert (H : NodeClassification_forward Demo.shift_forward_R
                RealLoss.cross_entropy [-100] Demo.modelR tt Demo.featuresR
                [0] Demo.torch0 = (Ok RealLoss.NaN, Demo.torch0))
    by reflexivity.
  split; [exact H|].
  intros (r & t' & Hr & _). rewrite H in Hr. discriminate.
Qed.

Lemma NodeClassification_forward_loss_nonneg_witness :
  exists r,
    NodeClassification_forward Demo.shift_forward_R RealLoss.cross_entropy
      Demo.labelsR Demo.modelR tt Demo.featuresR [0] Demo.torch0
    = (Ok (RealLoss.Finite r), Demo.torch0) /\
    (0 <= r)%R.
Proof.
  assert (Hne : [0] <> []) by discriminate.
  apply (proj2 (NodeClassification_forward_loss_nonneg Demo.shift_forward_R
                  Demo.labelsR Demo.modelR tt Demo.featuresR [0] Demo.torch0
                  Hne)
           Demo.logitsR Demo.torch0 eq_refl).
  constructor; [|constructor].
  exists [(0 + 0)%R; (0 + 0)%R], 0.
  split; [reflexivity|]. split; [reflexivity|].
  unfold RealLoss.class_of, len; simpl; lia.
Defined.

(* ================================================================== *)
(** * The modelled [torch.max] is an arg-max *)

Section ArgmaxOrder.

Context {score : Type}.
Variable score_ltb : score -> score -> bool.

(** The comparison is a strict weak order, as [<] is on numbers. *)
Hypothesis ltb_irrefl : forall a, score_ltb a a = false.
Hypothesis ltb_trans :
  forall a b c, score_ltb a b = true -> score_ltb b c = true ->
                score_ltb a c = true.
Hypothesis ltb_weak :
  forall a b c, score_ltb a b = true ->
                score_ltb a c = true \/ score_ltb c b = true.

Lemma nth_error_snoc (pre : list score) x k y :
  nth_error (pre ++ [x]) k = Some y ->
  ((k < length pre)%nat /\ nth_error pre k = Some y) \/
  (k = length pre /\ y = x).
Proof.
  intros H. destruct (Nat.lt_ge_cases k (length pre)) as [Hk|Hk].
  - left. split; [exact Hk|]. now rewrite nth_error_app1 in H.
  - right. rewrite nth_error_app2 in H by exact Hk.
    destruct (k - length pre)%nat as [|m] eqn:E.
    + simpl in H. injection H as <-. split; [lia|reflexivity].
    + simpl in H. destruct m; discriminate.
Qed.

Lemma max_scan_first_maximum row :
  forall pre best besti,
    0 <= besti < len pre ->
    nth_error pre (Z.to_nat besti) = Some best ->
    (forall k x, nth_error pre k = Some x -> score_ltb best x = false) ->
    (forall k x, (k < Z.to_nat besti)%nat -> nth_error pre k = Some x ->
                 score_ltb x best = true) ->
    first_maximum score_ltb (pre ++ row)
      (fst (max_scan score_ltb best besti (len pre) row))
      (snd (max_scan score_ltb best besti (len pre) row)).
Proof.
  induction row as [|x row IH]; intros pre best besti Hb Hnth Hmax Hfirst.
  - cbn [max_scan fst snd]. rewrite app_nil_r.
    unfold first_maximum. auto.
  - cbn [max_scan].
    replace (pre ++ x :: row) with ((pre ++ [x]) ++ row)
      by (rewrite <- app_assoc; reflexivity).
    assert (Hlen : len pre + 1 = len (pre ++ [x])).
    { unfold len. rewrite length_app. simpl. lia. }
    rewrite Hlen.
    destruct (score_ltb best x) eqn:E.
    + apply IH.
      * unfold len in *. lia.
      * unfold len. rewrite Nat2Z.id, nth_error_app2, Nat.sub_diag by lia.
        reflexivity.
      * intros k y Hy.
        apply nth_error_snoc in Hy as [[_ Hy]|[_ ->]]; [|apply ltb_irrefl].
        destruct (score_ltb x y) eqn:Exy; [|reflexivity].
        rewrite <- (Hmax k y Hy). symmetry. now apply (ltb_trans best x y).
      * unfold len. rewrite Nat2Z.id. intros k y Hk Hy.
        rewrite nth_error_app1 in Hy by exact Hk.
        destruct (ltb_weak best x y E) as [Hby|Hyx]; [|exact Hyx].
        rewrite (Hmax k y Hy) in Hby. discriminate.
    + assert (Hbn : (Z.to_nat besti < length pre)%nat)
        by (unfold len in Hb; lia).
      apply IH.
      * unfold len in *. lia.
      * now rewrite nth_error_app1.
      * intros k y Hy.
        apply nth_error_snoc in Hy as [[_ Hy]|[_ ->]]; [|exact E].
        now apply (Hmax k).
      * intros k y Hk Hy.
        rewrite nth_error_app1 in Hy by lia. now apply (Hfirst k).
Qed.

(** The position that [torch.max] reports for a row holds the greatest
    entry of the row, and is the first position that does. *)
Lemma row_max_first_maximum row v j :
  row_max score_ltb row = Ok (v, j) -> first_maximum score_ltb row v j.
Proof.
  destruct row as [|x rest]; [discriminate|].
  cbn [row_max]. intros H. injection H as H.
  pose proof (max_scan_first_maximum rest [x] x 0) as Hm.
  change (len [x]) with 1 in Hm. change ([x] ++ rest) with (x :: rest) in Hm.
  rewrite H in Hm. cbn [fst snd] in Hm. apply Hm.
  - lia.
  - reflexivity.
  - intros [|[|k]] y Hy; simpl in Hy; try discriminate.
    injection Hy as <-. apply ltb_irrefl.
  - intros k y Hk. simpl in Hk. lia.
Qed.







End ArgmaxOrder.

(** On integer scores, the arg-max of [NCEvaluate] is the first greatest
    entry. *)
Lemma row_max_Z_first_maximum row v j :
  row_max Z.ltb row = Ok (v, j) -> first_maximum Z.ltb row v j.
Proof.
  apply row_max_first_maximum.
  - intros a. apply Z.ltb_irrefl.
  - intros a b c Hab Hbc. apply Z.ltb_lt in Hab, Hbc. apply Z.ltb_lt. lia.
  - intros a b c Hab. apply Z.ltb_lt in Hab.
    destruct (Z.ltb_spec a c); [now left|right]. apply Z.ltb_lt. lia.
Qed.


(* ================================================================== *)
(** * The accuracy of [NCEvaluate] is the top-1 accuracy *)

Section Top1Accuracy.

Context {Graph score Activation Params Rng : Type}.
Variable score_ltb : score -> score -> bool.
Variable SAGEConv_forward :
  SAGEConv Activation Params -> Graph -> tensor2 score ->
  M Rng (tensor2 score).

Local Abbreviation eval_logits model g features t :=
  (GraphSAGEModel_forward SAGEConv_forward
     (gconv_model (NodeClassification_eval model)) g features
     (set_grad_enabled false t)).

Local Abbreviation evaluate model g features labels idx t :=
  (NCEvaluate score_ltb SAGEConv_forward model g features labels idx t).

(** ** C1 *)


End Top1Accuracy.


(** On the three nodes of the small instance the classes with the greatest
    score are 1, 0 and 2 and the labels 1, 0 and 1: the top-1 accuracy is
    2/3, and it is what [NCEvaluate] returns. *)
Example spec_top1_accuracy_demo :
  map (spec_argmax Z.ltb) Demo.features0 = [Some 1; Some 0; Some 2] /\
  spec_top1_accuracy Z.ltb Demo.features0 Demo.labels0 [0; 1; 2] = 2 # 3 /\
  snd (NCEvaluate Z.ltb Demo.shift_forward Demo.model0 tt Demo.features0
         Demo.labels0 [0; 1; 2] Demo.torch0) = (Ok (2 # 3), Demo.torch0).
Proof. repeat split. Qed.

(* ================================================================== *)
(** * More on the index sets *)

Lemma where_from_In cond :
  forall k i,
    In i (where_from k cond) <->
    k <= i /\ nth_error cond (Z.to_nat (i - k)) = Some true.
Proof.
  induction cond as [|c rest IH]; intros k i.
  - simpl. split; [tauto|]. intros [_ H].
    destruct (Z.to_nat (i - k)); discriminate.
  - assert (Hstep : k + 1 <= i ->
              nth_error (c :: rest) (Z.to_nat (i - k))
              = nth_error rest (Z.to_nat (i - (k + 1)))).
    { intros Hi. replace (Z.to_nat (i - k))
        with (S (Z.to_nat (i - (k + 1)))) by lia. reflexivity. }
    assert (Hrest : In i (where_from (k + 1) rest) <->
              k + 1 <= i /\ nth_error (c :: rest) (Z.to_nat (i - k))
                            = Some true).
    { rewrite IH. split; intros [Hi H]; (split; [exact Hi|]).
      - now rewrite Hstep.
      - now rewrite <- Hstep. }
    cbn [where_from]. destruct c; cbn [In]; rewrite ?Hrest.
    + split.
      * intros [<-|[Hi H]]; [|split; [lia|exact H]].
        split; [lia|]. now rewrite Z.sub_diag.
      * intros [Hi H]. destruct (Z.eq_dec k i) as [->|Hne]; [now left|].
        right. split; [lia|exact H].
    + split.
      * intros [Hi H]. split; [lia|exact H].
      * intros [Hi H]. destruct (Z.eq_dec k i) as [->|Hne].
        -- rewrite Z.sub_diag in H. discriminate.
        -- split; [lia|exact H].
Qed.

Lemma where_from_sorted cond :
  forall k, StronglySorted Z.lt (where_from k cond).
Proof.
  induction cond as [|c rest IH]; intros k; cbn [where_from].
  - constructor.
  - destruct c; [|apply IH]. constructor; [apply IH|].
    pose proof (where_from_bounds rest (k + 1)) as Hb.
    eapply Forall_impl; [|exact Hb]. cbv beta. intros i. lia.
Qed.

Lemma where_from_length cond :
  forall k, length (where_from k cond) = length (filter (fun c => c) cond).
Proof.
  induction cond as [|c rest IH]; intros k; cbn [where_from filter].
  - reflexivity.
  - destruct c; cbn [length]; now rewrite IH.
Qed.

Lemma np_where_gt0_In mask i :
  In i (np_where (gt0 mask)) <->
  0 <= i < len mask /\
  exists x, nth_error mask (Z.to_nat i) = Some x /\ 0 < x.
Proof.
  unfold np_where, gt0. rewrite where_from_In, Z.sub_0_r, nth_error_map.
  split.
  - intros [Hi H].
    destruct (nth_error mask (Z.to_nat i)) as [x|] eqn:E; [|discriminate].
    injection H as H. apply Z.ltb_lt in H.
    assert (Hlt : (Z.to_nat i < length mask)%nat).
    { apply nth_error_Some. congruence. }
    split; [unfold len; lia|]. now exists x.
  - intros [[Hi _] (x & -> & Hx)]. split; [exact Hi|].
    cbn [option_map]. f_equal. now apply Z.ltb_lt.
Qed.

(** X1. The index set contains exactly the positions of the mask whose
    entry is greater than 0. *)
Theorem split_indices_membership (mask : list Z) (i : Z) :
  In i (np_where (gt0 mask)) <->
  0 <= i < len mask /\
  exists x, nth_error mask (Z.to_nat i) = Some x /\ 0 < x.
Proof. apply np_where_gt0_In. Qed.

(** X2. The index set is in strictly ascending order, so no index occurs
    twice. *)
Theorem split_indices_ascending (mask : list Z) :
  StronglySorted Z.lt (np_where (gt0 mask)) /\
  NoDup (np_where (gt0 mask)).
Proof.
  assert (Hs : StronglySorted Z.lt (np_where (gt0 mask)))
    by apply where_from_sorted.
  split; [exact Hs|].
  induction Hs as [|i l Hs IH Hall]; constructor; [|exact IH].
  intros Hin. rewrite Forall_forall in Hall. specialize (Hall i Hin). lia.
Qed.

(** X3. The number of samples that the statistics cell prints for a mask
    is the number of entries of the mask that are greater than 0; it is at
    most the number of nodes. *)
Theorem split_indices_count (mask : list Z) :
  len (np_where (gt0 mask)) = len (filter (fun x => 0 <? x) mask) /\
  len (np_where (gt0 mask)) <= len mask.
Proof.
  assert (H : len (np_where (gt0 mask)) = len (filter (fun x => 0 <? x) mask)).
  { unfold len, np_where, gt0. rewrite where_from_length. f_equal.
    induction mask as [|x mask IH]; cbn [map filter]; [reflexivity|].
    destruct (0 <? x); cbn [length]; now rewrite IH. }
  split; [exact H|]. rewrite H. unfold len.
  apply inj_le, filter_length_le.
Qed.

(** X4. Two masks that are never both positive at a node give index sets
    without a common index. *)
Theorem split_indices_disjoint (mask1 mask2 : list Z) :
  (forall k x y, nth_error mask1 k = Some x -> nth_error mask2 k = Some y ->
                 0 < x -> 0 < y -> False) ->
  forall i, In i (np_where (gt0 mask1)) -> ~ In i (np_where (gt0 mask2)).
Proof.
  intros Hdis i H1 H2.
  apply np_where_gt0_In in H1 as [_ (x & Hx & Hxpos)].
  apply np_where_gt0_In in H2 as [_ (y & Hy & Hypos)].
  exact (Hdis _ x y Hx Hy Hxpos Hypos).
Qed.

Lemma split_indices_disjoint_witness :
  In 3 (np_where (gt0 [1; 0; 0; 1])) /\
  ~ In 3 (np_where (gt0 [0; 1; 0; 0])).
Proof.
  assert (Hin : In 3 (np_where (gt0 [1; 0; 0; 1])))
    by (right; left; reflexivity).
  split; [exact Hin|].
  apply (split_indices_disjoint [1; 0; 0; 1] [0; 1; 0; 0]); [|exact Hin].
  intros k x y Hx Hy Hxpos Hypos.
  destruct k as [|[|[|[|[|k]]]]]; simpl in Hx, Hy;
    try discriminate; injection Hx as <-; injection Hy as <-; lia.
Defined.

(* ================================================================== *)
(** * More on the assembled model *)

Section AssemblyMore.

Context {Activation Params Rng : Type}.
Variable init_parameters : Z -> Z -> string -> Q -> M Rng Params.

(** X5. A layer count of 1 or less builds no hidden layer: the outcome of
    [GraphSAGEModel.__init__] is the one of a layer count of 1, every model
    it assembles has two layers, and it assembles one whenever the
    constructor of the layers accepts the input layer and the output
    layer. *)
Theorem GraphSAGEModel_init_small_layer_count in_f n_hidden out_dim n_layers
    (act : option Activation) dropout agg (t : Torch Rng) :
  n_layers <= 1 ->
  GraphSAGEModel_init init_parameters in_f n_hidden out_dim n_layers act
    dropout agg t
  = GraphSAGEModel_init init_parameters in_f n_hidden out_dim 1 act dropout
      agg t /\
  (forall m t',
      GraphSAGEModel_init init_parameters in_f n_hidden out_dim n_layers act
        dropout agg t = (Ok m, t') ->
      len (layers m) = 2) /\
  (accepts init_parameters in_f n_hidden agg dropout ->
   accepts init_parameters n_hidden out_dim agg dropout ->
   exists m t',
     GraphSAGEModel_init init_parameters in_f n_hidden out_dim n_layers act
       dropout agg t = (Ok m, t') /\
     len (layers m) = 2).
Proof.
  intros Hn.
  assert (Hr : range_len (n_layers - 1) = 0%nat) by (unfold range_len; lia).
  assert (Htwo : forall m t',
    GraphSAGEModel_init init_parameters in_f n_hidden out_dim n_layers act
      dropout agg t = (Ok m, t') ->
    len (layers m) = 2).
  { intros m t' H.
    apply GraphSAGEModel_init_layers in H
      as (l_in & hid & l_out & -> & Hlen & _).
    cbn [layers]. rewrite Hr in Hlen.
    destruct hid; [reflexivity|discriminate]. }
  split; [|split; [exact Htwo|]].
  - unfold GraphSAGEModel_init. rewrite Hr. reflexivity.
  - intros Hin Hout.
    assert (Hex : exists m t',
      GraphSAGEModel_init init_parameters in_f n_hidden out_dim n_layers act
        dropout agg t = (Ok m, t')).
    { unfold GraphSAGEModel_init. rewrite Hr. unfold bind at 1.
      destruct (SAGEConv_new_total init_parameters in_f n_hidden agg dropout
                  act t Hin) as (l_in & t1 & ->).
      cbn [hidden_layers]. unfold bind at 1, ret at 1. unfold bind.
      destruct (SAGEConv_new_total init_parameters n_hidden out_dim agg
                  dropout (@None Activation) t1 Hout) as (l_out & t2 & ->).
      unfold ret. now eexists; eexists. }
    destruct Hex as (m & t' & H). exists m, t'.
    split; [exact H|]. now apply (Htwo m t').
Qed.

Lemma chain_consecutive (n_hidden : Z)
    (l_in l_out : SAGEConv Activation Params) hid :
  out_feats l_in = n_hidden ->
  Forall (fun l => in_feats l = n_hidden /\ out_feats l = n_hidden) hid ->
  in_feats l_out = n_hidden ->
  forall k l1 l2,
    nth_error ([l_in] ++ hid ++ [l_out]) k = Some l1 ->
    nth_error ([l_in] ++ hid ++ [l_out]) (S k) = Some l2 ->
    out_feats l1 = in_feats l2.
Proof.
  intros Hin Hhid Hout k l1 l2 H1 H2.
  assert (Ho : Forall (fun l => out_feats l = n_hidden) (l_in :: hid)).
  { constructor; [exact Hin|].
    eapply Forall_impl; [|exact Hhid]. cbv beta. tauto. }
  assert (Hi : Forall (fun l => in_feats l = n_hidden) (hid ++ [l_out])).
  { apply Forall_app. split; [|now constructor].
    eapply Forall_impl; [|exact Hhid]. cbv beta. tauto. }
  assert (Hk : (k < length (l_in :: hid))%nat).
  { assert (Hlt : (S k < length ([l_in] ++ hid ++ [l_out]))%nat)
      by (apply nth_error_Some; congruence).
    cbn [app length] in Hlt. rewrite length_app in Hlt.
    cbn [length] in *. lia. }
  cbn [app nth_error] in H2. apply nth_error_In in H2.
  rewrite Forall_forall in Hi. rewrite (Hi l2 H2).
  change ([l_in] ++ hid ++ [l_out]) with ((l_in :: hid) ++ [l_out]) in H1.
  rewrite nth_error_app1 in H1 by exact Hk. apply nth_error_In in H1.
  rewrite Forall_forall in Ho. exact (Ho l1 H1).
Qed.

(** X6. The layers of an assembled model fit together: the first layer
    takes [in_feats] inputs, the last layer gives [out_dim] outputs, and the
    output size of every layer is the input size of the layer after it. *)
Theorem GraphSAGEModel_init_sizes_chain in_f n_hidden out_dim n_layers
    (act : option Activation) dropout agg (t : Torch Rng) m t' :
  GraphSAGEModel_init init_parameters in_f n_hidden out_dim n_layers act
    dropout agg t = (Ok m, t') ->
  (exists l rest, layers m = l :: rest /\ in_feats l = in_f) /\
  (exists front l, layers m = front ++ [l] /\ out_feats l = out_dim) /\
  forall k l1 l2,
    nth_error (layers m) k = Some l1 ->
    nth_error (layers m) (S k) = Some l2 ->
    out_feats l1 = in_feats l2.
Proof.
  intros H.
  apply GraphSAGEModel_init_layers in H
    as (l_in & hid & l_out & -> & _ & Hin & Hhid & Hout).
  cbn [layers]. unfold built_from in *. split; [|split].
  - exists l_in, (hid ++ [l_out]). split; [reflexivity|tauto].
  - exists ([l_in] ++ hid), l_out. rewrite <- app_assoc.
    split; [reflexivity|tauto].
  - apply (chain_consecutive n_hidden); [tauto| |tauto].
    eapply Forall_impl; [|exact Hhid]. cbv beta. tauto.
Qed.

End AssemblyMore.

Lemma GraphSAGEModel_init_small_layer_count_witness :
  exists m t',
    GraphSAGEModel_init Demo.init_weights 500 64 3 (-3) (Some Demo.relu)
      (1 # 2) "gcn" Demo.torch0 = (Ok m, t') /\
    len (layers m) = 2.
Proof.
  assert (Hn : -3 <= 1) by lia.
  apply (proj2 (proj2 (GraphSAGEModel_init_small_layer_count
                         Demo.init_weights 500 64 3 (-3) (Some Demo.relu)
                         (1 # 2) "gcn" Demo.torch0 Hn)));
    apply demo_accepts; lia.
Defined.

Lemma GraphSAGEModel_init_sizes_chain_witness :
  exists front l,
    layers {| layers :=
                [mkSAGEConv 500 64 "gcn"%string (1 # 2) (Some Demo.relu) 0
                   true;
                 mkSAGEConv 64 3 "gcn"%string (1 # 2) None 1 true];
              gs_training := true |}
    = front ++ [l] /\
    out_feats l = 3.
Proof.
  apply (proj1 (proj2 (GraphSAGEModel_init_sizes_chain Demo.init_weights 500
                         64 3 1 (Some Demo.relu) (1 # 2) "gcn" Demo.torch0 _
                         (mkTorch true 2) eq_refl))).
Defined.

(* ================================================================== *)
(** * More on the forward pass of the model *)

Section ForwardPass.

Context {Graph score Activation Params Rng : Type}.
Variable SAGEConv_forward :
  SAGEConv Activation Params -> Graph -> tensor2 score ->
  M Rng (tensor2 score).



End ForwardPass.

(* ================================================================== *)
(** * More on indexing *)

Lemma py_index_Raise {A : Type} (t : list A) i e :
  py_index t i = Raise e -> e = IndexError.
Proof.
  unfold py_index. destruct (_ && _).
  - destruct (nth_error t _); [discriminate|]. now intros [= <-].
  - now intros [= <-].
Qed.

Lemma getitem_invalid {A : Type} (t : list A) idx :
  Exists (fun i => ~ valid_index (len t) i) idx ->
  getitem t idx = Raise IndexError.
Proof.
  unfold getitem. induction idx as [|i idx IH]; intros H.
  - inversion H.
  - cbn [mapM]. destruct (py_index t i) as [x|e] eqn:E.
    + cbn [rbind]. rewrite IH; [reflexivity|].
      inversion H as [? ? Hbad|? ? Hrest]; subst; [|exact Hrest].
      apply py_index_Ok_valid in E. contradiction.
    + apply py_index_Raise in E as ->. reflexivity.
Qed.

Lemma filter_length_Permutation {A : Type} (f : A -> bool) l l' :
  Permutation l l' -> length (filter f l) = length (filter f l').
Proof.
  induction 1 as [|x l l' _ IH|x y l|l l' l'' _ IH1 _ IH2]; cbn [filter].
  - reflexivity.
  - destruct (f x); cbn [length]; now rewrite IH.
  - destruct (f x), (f y); reflexivity.
  - now rewrite IH1.
Qed.





(* ================================================================== *)
(** * More on [NCEvaluate] *)

Section EvaluationMore.

Context {Graph score Activation Params Rng : Type}.
Variable score_ltb : score -> score -> bool.
Variable SAGEConv_forward :
  SAGEConv Activation Params -> Graph -> tensor2 score ->
  M Rng (tensor2 score).

Local Abbreviation accuracy_of logits labels idx :=
  (rows <- getitem logits idx ;;
   test_labels <- getitem labels idx ;;
   vi <- torch_max_dim1 score_ltb rows ;;
   eqs <- tensor_eq (snd vi) test_labels ;;
   py_truediv (inject_Z (tensor_sum eqs) * 1) (len test_labels))%result.

Local Abbreviation eval_logits model g features t :=
  (GraphSAGEModel_forward SAGEConv_forward
     (gconv_model (NodeClassification_eval model)) g features
     (set_grad_enabled false t)).

Local Abbreviation evaluate model g features labels idx t :=
  (NCEvaluate score_ltb SAGEConv_forward model g features labels idx t).

(** Index [i] selects an output row with at least one class, and a
    label. *)
Local Abbreviation selects logits labels i :=
  (exists (row : list score) (y : Z),
      py_index logits i = Ok row /\ row <> [] /\ py_index labels i = Ok y).

Lemma stages_Ok_selects (logits : list (list score)) (labels : list Z) idx :
  forall rows ys ps,
    getitem logits idx = Ok rows ->
    getitem labels idx = Ok ys ->
    mapM (row_max score_ltb) rows = Ok ps ->
    Forall (fun i => selects logits labels i) idx.
Proof.
  unfold getitem. induction idx as [|i idx IH]; intros rows ys ps Hr Hy Hp.
  - constructor.
  - apply mapM_Ok_cons in Hr as (row & rows' & Hrow & Hr & ->).
    apply mapM_Ok_cons in Hy as (y & ys' & Hlab & Hy & ->).
    apply mapM_Ok_cons in Hp as (p & ps' & Hmax & Hp & ->).
    constructor; [|now apply (IH rows' ys' ps')].
    exists row, y. repeat split; trivial.
    intros ->. discriminate.
Qed.

Lemma selects_stages_Ok (logits : list (list score)) (labels : list Z) idx :
  Forall (fun i => selects logits labels i) idx ->
  exists rows ys ps,
    getitem logits idx = Ok rows /\
    getitem labels idx = Ok ys /\
    mapM (row_max score_ltb) rows = Ok ps.
Proof.
  unfold getitem. induction 1 as [|i idx (row & y & Hrow & Hne & Hlab) _ IH].
  - now exists [], [], [].
  - destruct IH as (rows & ys & ps & Hr & Hy & Hp).
    destruct row as [|x row]; [congruence|].
    exists ((x :: row) :: rows), (y :: ys),
      (max_scan score_ltb x 0 1 row :: ps).
    cbn [mapM]. rewrite Hrow, Hlab, Hr, Hy. cbn [rbind mapM row_max].
    now rewrite Hp.
Qed.

(** When the accuracy is returned: on a non-empty index set each of whose
    indices selects a row with a class and a label, and only then. *)
Lemma accuracy_of_Ok_iff (logits : list (list score)) labels idx :
  (exists acc, accuracy_of logits labels idx = Ok acc) <->
  idx <> [] /\ Forall (fun i => selects logits labels i) idx.
Proof.
  split.
  - intros [acc H]. split; [now apply (accuracy_of_Ok score_ltb) in H|].
    destruct (getitem logits idx) as [rows|e] eqn:Hr; [|discriminate].
    destruct (getitem labels idx) as [ys|e] eqn:Hy; [|discriminate].
    cbn [rbind] in H. unfold torch_max_dim1 in H.
    destruct (mapM (row_max score_ltb) rows) as [ps|e] eqn:Hp;
      [|discriminate].
    now apply (stages_Ok_selects logits labels idx rows ys ps).
  - intros [Hne Hall].
    destruct (selects_stages_Ok logits labels idx Hall)
      as (rows & ys & ps & Hr & Hy & Hp).
    rewrite Hr, Hy. cbn [rbind]. unfold torch_max_dim1. rewrite Hp.
    cbn [rbind snd].
    assert (Hlr : length rows = length idx) by (eapply mapM_Ok_length; eauto).
    assert (Hly : length ys = length idx) by (eapply mapM_Ok_length; eauto).
    assert (Hlp : length ps = length rows) by (eapply mapM_Ok_length; eauto).
    rewrite tensor_eq_same_length by (rewrite length_map; congruence).
    cbn [rbind]. unfold py_truediv.
    destruct (Z.eqb_spec (len ys) 0) as [Hz|Hnz]; [|eexists; reflexivity].
    unfold len in Hz. destruct idx; [congruence|]. simpl in Hly. lia.
Qed.

Lemma eval_train (mode : bool) (m : NodeClassification Activation Params) :
  NodeClassification_eval (NodeClassification_train Activation Params mode m)
  = NodeClassification_eval m.
Proof.
  unfold NodeClassification_eval, NodeClassification_train,
    GraphSAGEModel_train. cbn [gconv_model layers loss_fcn].
  rewrite map_map. reflexivity.
Qed.

(** X8. After [NCEvaluate] the model is in evaluation mode, whatever its
    mode was: the flag of the model, of the GraphSAGE model and of every
    layer is off, and it stays so (the function does not restore the mode).
    The layers are as many as before and keep their configuration. *)
Theorem NCEvaluate_leaves_eval_mode
    (model : NodeClassification Activation Params)
    (g : Graph) features labels test_idx (t : Torch Rng) :
  let model' := fst (evaluate model g features labels test_idx t) in
  nc_training model' = false /\
  gs_training (gconv_model model') = false /\
  Forall (fun l => training l = false) (layers (gconv_model model')) /\
  map layer_config (layers (gconv_model model'))
  = map layer_config (layers (gconv_model model)).
Proof.
  unfold NCEvaluate. cbn [fst].
  unfold NodeClassification_eval, NodeClassification_train,
    GraphSAGEModel_train. cbn [nc_training gs_training gconv_model layers].
  repeat split.
  - apply Forall_forall. intros l Hl. apply in_map_iff in Hl as (l0 & <- & _).
    reflexivity.
  - rewrite map_map. apply map_ext. intros l. reflexivity.
Qed.

(** X9. [NCEvaluate] leaves gradient tracking as it found it, whether it
    returns or raises. *)
Theorem NCEvaluate_restores_grad_mode
    (model : NodeClassification Activation Params)
    (g : Graph) features labels test_idx (t : Torch Rng) :
  grad_enabled (snd (snd (evaluate model g features labels test_idx t)))
  = grad_enabled t.
Proof.
  rewrite (NCEvaluate_eq score_ltb SAGEConv_forward). cbn [snd].
  destruct (GraphSAGEModel_forward _ _ _ _ _) as [[logits|e] t1];
    reflexivity.
Qed.

(** X10. The mode of the model before the call has no effect on
    [NCEvaluate]: from a model switched to training mode or to evaluation
    mode it gives the same model, the same outcome and the same state. *)
Theorem NCEvaluate_ignores_mode (mode : bool)
    (model : NodeClassification Activation Params)
    (g : Graph) features labels test_idx (t : Torch Rng) :
  evaluate (NodeClassification_train Activation Params mode model) g features
    labels test_idx t
  = evaluate model g features labels test_idx t.
Proof.
  unfold NCEvaluate. now rewrite eval_train.
Qed.

(** X11. An index outside the output of the model or outside the labels
    makes [NCEvaluate] raise [IndexError], when the model returns its
    output. *)
Theorem NCEvaluate_index_error
    (model : NodeClassification Activation Params)
    (g : Graph) features labels test_idx (t : Torch Rng) logits t1 :
  eval_logits model g features t = (Ok logits, t1) ->
  Exists (fun i => ~ valid_index (len logits) i \/
                   ~ valid_index (len labels) i) test_idx ->
  snd (evaluate model g features labels test_idx t)
  = (Raise IndexError, set_grad_enabled (grad_enabled t) t1).
Proof.
  intros Hfw Hbad.
  rewrite (NCEvaluate_eq score_ltb SAGEConv_forward). cbn [snd].
  rewrite Hfw. f_equal.
  destruct (getitem logits test_idx) as [rows|e] eqn:Hr.
  - cbn [rbind]. rewrite getitem_invalid; [reflexivity|].
    apply getitem_Ok_valid in Hr. rewrite Forall_forall in Hr.
    apply Exists_exists in Hbad as (i & Hi & [Hl|Hy]).
    + elim Hl. now apply Hr.
    + apply Exists_exists. now exists i.
  - unfold getitem in Hr.
    assert (e = IndexError) as ->; [|reflexivity].
    clear - Hr. revert Hr. induction test_idx as [|i idx IH]; [discriminate|].
    cbn [mapM]. destruct (py_index logits i) as [x|e'] eqn:E.
    + cbn [rbind]. destruct (mapM (py_index logits) idx) as [xs|e'];
        [discriminate|]. cbn [rbind]. intros [= ->]. now apply IH.
    + cbn [rbind]. intros [= ->]. now apply py_index_Raise in E.
Qed.

(** X12. [NCEvaluate] does not depend on the order of the index set: on a
    rearrangement of the indices it returns the same accuracy and leaves
    the same state. *)
Theorem NCEvaluate_permutation
    (model : NodeClassification Activation Params)
    (g : Graph) features labels idx idx' (t : Torch Rng) acc t' :
  Permutation idx idx' ->
  snd (evaluate model g features labels idx t) = (Ok acc, t') ->
  exists acc',
    snd (evaluate model g features labels idx' t) = (Ok acc', t') /\
    (acc' == acc)%Q.
Proof.
  intros Hperm.
  rewrite !(NCEvaluate_eq score_ltb SAGEConv_forward). cbn [snd].
  destruct (GraphSAGEModel_forward _ _ _ _ _) as [[logits|e] t1];
    [|discriminate].
  intros H. injection H as H <-.
  assert (Hex : exists a, accuracy_of logits labels idx = Ok a)
    by (now exists acc).
  apply accuracy_of_Ok_iff in Hex as [Hne Hall].
  assert (Hex' : exists a, accuracy_of logits labels idx' = Ok a).
  { apply accuracy_of_Ok_iff. split.
    - intros ->. apply Permutation_sym, Permutation_nil in Hperm.
      congruence.
    - eapply Permutation_Forall; eauto. }
  destruct Hex' as [acc' H'].
  exists acc'. split; [now rewrite H'|].
  apply (accuracy_of_Ok score_ltb) in H as [_ ->].
  apply (accuracy_of_Ok score_ltb) in H' as [_ ->].
  unfold hit_rate, len.
  rewrite (filter_length_Permutation _ _ _ Hperm),
    (Permutation_length Hperm).
  reflexivity.
Qed.


End EvaluationMore.

Lemma NCEvaluate_index_error_witness :
  snd (NCEvaluate Z.ltb Demo.shift_forward Demo.model0 tt Demo.features0
         Demo.labels0 [0; 3] Demo.torch0)
  = (Raise IndexError, Demo.torch0).
Proof.
  apply (NCEvaluate_index_error Z.ltb Demo.shift_forward Demo.model0 tt
           Demo.features0 Demo.labels0 [0; 3] Demo.torch0 Demo.features0
           (mkTorch false 0) eq_refl).
  apply Exists_cons_tl. apply Exists_cons_hd.
  left. unfold valid_index, len, Demo.features0. simpl length. lia.
Defined.

Lemma NCEvaluate_permutation_witness :
  exists acc',
    snd (NCEvaluate Z.ltb Demo.shift_forward Demo.model0 tt Demo.features0
           Demo.labels0 [2; 0] Demo.torch0) = (Ok acc', Demo.torch0) /\
    (acc' == 1 # 2)%Q.
Proof.
  apply (NCEvaluate_permutation Z.ltb Demo.shift_forward Demo.model0 tt
           Demo.features0 Demo.labels0 [0; 2] [2; 0] Demo.torch0).
  - apply perm_swap.
  - reflexivity.
Defined.


(* ================================================================== *)
(** * More on the loss wrapper *)

Section ForwardMore.

Context {Graph score Activation Params Rng lossT : Type}.
Variable SAGEConv_forward :
  SAGEConv Activation Params -> Graph -> tensor2 score ->
  M Rng (tensor2 score).
Variable cross_entropy : tensor2 score -> list Z -> result lossT.

Lemma getitem_Raise {A : Type} (t : list A) idx e :
  getitem t idx = Raise e -> e = IndexError.
Proof.
  unfold getitem. induction idx as [|i idx IH]; [discriminate|].
  cbn [mapM]. destruct (py_index t i) as [x|e'] eqn:E.
  - cbn [rbind]. destruct (mapM (py_index t) idx) as [xs|e'];
      [discriminate|]. cbn [rbind]. intros [= ->]. now apply IH.
  - cbn [rbind]. intros [= ->]. now apply py_index_Raise in E.
Qed.

Lemma forward_index_error labels
    (self : NodeClassification Activation Params) (g : Graph) features
    train_idx (t : Torch Rng) logits t1 :
  GraphSAGEModel_forward SAGEConv_forward (gconv_model self) g features t
  = (Ok logits, t1) ->
  Exists (fun i => ~ valid_index (len logits) i \/
                   ~ valid_index (len labels) i) train_idx ->
  NodeClassification_forward SAGEConv_forward cross_entropy labels self g
    features train_idx t = (Raise IndexError, t1).
Proof.
  intros Hfw Hbad. rewrite NodeClassification_forward_eq, Hfw. f_equal.
  destruct (getitem logits train_idx) as [rows|e] eqn:Hr.
  - cbn [rbind]. rewrite getitem_invalid; [reflexivity|].
    apply getitem_Ok_valid in Hr. rewrite Forall_forall in Hr.
    apply Exists_exists in Hbad as (i & Hi & [Hl|Hy]).
    + elim Hl. now apply Hr.
    + apply Exists_exists. now exists i.
  - apply getitem_Raise in Hr as ->. reflexivity.
Qed.

(** X14. An index outside the output of the model or outside the labels
    makes [NodeClassification.forward] raise [IndexError] before any loss
    is computed, when the model returns its output. *)
Theorem NodeClassification_forward_index_error labels
    (self : NodeClassification Activation Params) (g : Graph) features
    train_idx (t : Torch Rng) logits t1 :
  GraphSAGEModel_forward SAGEConv_forward (gconv_model self) g features t
  = (Ok logits, t1) ->
  Exists (fun i => ~ valid_index (len logits) i \/
                   ~ valid_index (len labels) i) train_idx ->
  NodeClassification_forward SAGEConv_forward cross_entropy labels self g
    features train_idx t = (Raise IndexError, t1).
Proof. apply forward_index_error. Qed.

End ForwardMore.

Lemma NodeClassification_forward_index_error_witness :
  NodeClassification_forward Demo.shift_forward DemoTraining.count_loss
    Demo.labels0 Demo.model0 tt Demo.features0 [-4] Demo.torch0
  = (Raise IndexError, Demo.torch0).
Proof.
  apply (NodeClassification_forward_index_error Demo.shift_forward
           DemoTraining.count_loss Demo.labels0 Demo.model0 tt
           Demo.features0 [-4] Demo.torch0 Demo.features0 Demo.torch0
           eq_refl).
  apply Exists_cons_hd.
  left. unfold valid_index, len, Demo.features0. simpl length. lia.
Defined.

(* ================================================================== *)
(** * The training cell *)

Section TrainingFacts.

Context {Graph score Activation Params Rng lossT OptWorld : Type}.
Variable score_ltb : score -> score -> bool.
Variable SAGEConv_forward :
  SAGEConv Activation Params -> Graph -> tensor2 score ->
  M Rng (tensor2 score).
Variable cross_entropy : tensor2 score -> list Z -> result lossT.
Variable adam_init : list Params -> Q -> Q -> OptWorld.
Variable zero_grad : OptWorld -> OptWorld.
Variable backward : lossT -> OptWorld -> result OptWorld.
Variable adam_step : OptWorld -> nat -> Params -> Params.
Variable adam_next : OptWorld -> OptWorld.

Local Abbreviation body labels g features train_idx val_idx epoch s :=
  (epoch_body score_ltb SAGEConv_forward cross_entropy zero_grad backward
     adam_step adam_next labels g features train_idx val_idx epoch s).

Local Abbreviation loop k labels g features train_idx val_idx epoch s :=
  (epochs score_ltb SAGEConv_forward cross_entropy zero_grad backward
     adam_step adam_next k labels g features train_idx val_idx epoch s).

Local Abbreviation cell weight_decay n_epochs lr gconv n_hidden n_classes
    labels g features train_idx val_idx test_idx t :=
  (training_loop score_ltb SAGEConv_forward cross_entropy adam_init zero_grad
     backward adam_step adam_next weight_decay n_epochs lr gconv n_hidden
     n_classes labels g features train_idx val_idx test_idx t).

Local Abbreviation config_of m :=
  (map layer_config (layers (gconv_model m))).

Lemma config_train mode (m : NodeClassification Activation Params) :
  config_of (NodeClassification_train Activation Params mode m) = config_of m.
Proof.
  unfold NodeClassification_train, GraphSAGEModel_train.
  cbn [gconv_model layers]. rewrite map_map. now apply map_ext.
Qed.

Lemma config_step_layers (o : OptWorld)
    (ls : list (SAGEConv Activation Params)) :
  forall k, map layer_config (step_layers adam_step o k ls)
            = map layer_config ls.
Proof.
  induction ls as [|l ls IH]; intros k; cbn [step_layers map].
  - reflexivity.
  - now rewrite IH.
Qed.

Lemma config_step (o : OptWorld) (m : NodeClassification Activation Params) :
  config_of (optimizer_step adam_step o m) = config_of m.
Proof.
  unfold optimizer_step. cbn [gconv_model layers]. apply config_step_layers.
Qed.

Lemma eval_in_eval_mode (m : NodeClassification Activation Params) :
  in_eval_mode (NodeClassification_eval m).
Proof.
  unfold in_eval_mode, NodeClassification_eval, NodeClassification_train,
    GraphSAGEModel_train. cbn [nc_training gs_training gconv_model layers].
  repeat split. apply Forall_forall. intros l Hl.
  apply in_map_iff in Hl as (l0 & <- & _). reflexivity.
Qed.

Lemma NCEvaluate_fst (m : NodeClassification Activation Params) (g : Graph)
    features labels idx (t : Torch Rng) :
  fst (NCEvaluate score_ltb SAGEConv_forward m g features labels idx t)
  = NodeClassification_eval m.
Proof. reflexivity. Qed.

(** What one round of the loop does to the model and to the output. *)
Lemma epoch_body_cases labels (g : Graph) features train_idx val_idx epoch
    (s : Notebook OptWorld) r s' :
  body labels g features train_idx val_idx epoch s = (r, s') ->
  config_of (model s') = config_of (model s) /\
  match r with
  | Ok _ =>
      in_eval_mode (model s') /\ val_idx <> [] /\
      exists loss acc,
        stdout s' = stdout s ++ [EpochLine epoch loss acc] /\
        (0 <= acc <= 1)%Q
  | Raise _ => stdout s' = stdout s
  end.
Proof.
  unfold epoch_body.
  destruct (NodeClassification_forward _ _ _ _ _ _ _ _) as [[loss|e] t1].
  2:{ intros [= <- <-]. cbn [model stdout]. now rewrite config_train. }
  destruct (backward loss (zero_grad (optimizer s))) as [o|e].
  2:{ intros [= <- <-]. cbn [model stdout]. now rewrite config_train. }
  destruct (NCEvaluate _ _ _ _ _ _ _ _) as [m' [[acc|e] t2]] eqn:E.
  - intros [= <- <-]. cbn [model stdout].
    pose proof (f_equal fst E) as Hm. rewrite NCEvaluate_fst in Hm.
    cbn [fst] in Hm. subst m'.
    pose proof (f_equal snd E) as Hs. cbn [snd] in Hs.
    apply NCEvaluate_Ok_inv in Hs as (logits & t1' & _ & Hne & Hacc).
    split; [|split; [|split]].
    + unfold NodeClassification_eval.
      now rewrite config_train, config_step, config_train.
    + apply eval_in_eval_mode.
    + exact Hne.
    + exists loss, acc. split; [reflexivity|]. rewrite Hacc.
      now apply hit_rate_bounds.
  - intros [= <- <-]. cbn [model stdout].
    pose proof (f_equal fst E) as Hm. rewrite NCEvaluate_fst in Hm.
    cbn [fst] in Hm. subst m'. split; [|reflexivity].
    unfold NodeClassification_eval.
    now rewrite config_train, config_step, config_train.
Qed.

(** What [k] rounds of the loop do. *)
Lemma epochs_cases k labels (g : Graph) features train_idx val_idx :
  forall epoch (s : Notebook OptWorld) r s',
    loop k labels g features train_idx val_idx epoch s = (r, s') ->
    config_of (model s') = config_of (model s) /\
    exists ls,
      stdout s' = stdout s ++ ls /\
      Forall line_in_range ls /\
      (forall j l, nth_error ls j = Some l ->
                   is_epoch_line (epoch + Z.of_nat j) l) /\
      (ls <> [] -> val_idx <> []) /\
      match r with
      | Ok _ =>
          length ls = k /\
          ((k = 0%nat /\ s' = s) \/
           (val_idx <> [] /\ in_eval_mode (model s')))
      | Raise _ => (length ls < k)%nat
      end.
Proof.
  induction k as [|k IH]; intros epoch s r s' H.
  - cbn [epochs] in H. injection H as <- <-. split; [reflexivity|].
    exists []. rewrite app_nil_r. repeat split; auto; try congruence.
    intros [|j] l Hl; discriminate.
  - cbn [epochs] in H.
    destruct (body labels g features train_idx val_idx epoch s)
      as [[u|e] s1] eqn:E.
    + apply epoch_body_cases in E
        as (Hc & Hmode & Hne & loss & acc & Hout & Hacc).
      apply IH in H as (Hc' & ls & Hout' & Hrange & Hlines & _ & Hr).
      split; [congruence|].
      exists (EpochLine epoch loss acc :: ls).
      split; [rewrite Hout', Hout, <- app_assoc; reflexivity|].
      split; [constructor; [exact Hacc|exact Hrange]|].
      split; [|split; [intros _; exact Hne|]].
      * intros [|j] l Hl; cbn [nth_error] in Hl.
        -- injection Hl as <-. cbn [is_epoch_line]. lia.
        -- replace (epoch + Z.of_nat (S j)) with (epoch + 1 + Z.of_nat j)
             by lia. now apply Hlines.
      * destruct r as [u'|e'].
        -- destruct Hr as [Hlen Hk]. split; [cbn [length]; lia|].
           right. split; [exact Hne|].
           destruct Hk as [[_ ->]|[_ Hm]]; [exact Hmode|exact Hm].
        -- cbn [length]. lia.
    + injection H as <- <-.
      apply epoch_body_cases in E as (Hc & Hout).
      split; [exact Hc|]. exists []. rewrite app_nil_r.
      repeat split; auto; try congruence; [|cbn [length]; lia].
      intros [|j] l Hl; discriminate.
Qed.

Lemma NCEvaluate_nil_raises (m : NodeClassification Activation Params)
    (g : Graph) features labels (t : Torch Rng) :
  exists e t',
    snd (NCEvaluate score_ltb SAGEConv_forward m g features labels [] t)
    = (Raise e, t').
Proof.
  rewrite NCEvaluate_eq. cbn [snd].
  destruct (GraphSAGEModel_forward _ _ _ _ _) as [[logits|e] t1].
  - rewrite accuracy_of_nil. now eexists; eexists.
  - now eexists; eexists.
Qed.

(** X15. When the training cell completes, its output is one log line per
    epoch, for the epochs 0, 1, ... in this order ([n_epochs] of them, none
    when [n_epochs <= 0]), then an empty line, then the line of the test
    accuracy. *)
Theorem training_loop_output weight_decay n_epochs lr
    (gconv : GraphSAGEModel Activation Params) n_hidden n_classes labels
    (g : Graph) features train_idx val_idx test_idx (t : Torch Rng) u
    (s : Notebook OptWorld) :
  cell weight_decay n_epochs lr gconv n_hidden n_classes labels g features
    train_idx val_idx test_idx t = (Ok u, s) ->
  exists ls acc,
    stdout s = ls ++ [BlankLine; TestLine acc] /\
    len ls = Z.max 0 n_epochs /\
    forall j l, nth_error ls j = Some l -> is_epoch_line (Z.of_nat j) l.
Proof.
  unfold training_loop.
  destruct (epochs _ _ _ _ _ _ _ _ _ _ _ _ _ _ _) as [[u1|e] s1] eqn:E;
    [|discriminate].
  apply epochs_cases in E as (_ & ls & Hout & _ & Hlines & _ & Hlen & _).
  destruct (NCEvaluate _ _ _ _ _ _ _ _) as [m' [[acc|e] t']];
    [|discriminate].
  intros [= _ <-]. cbn [stdout] in *.
  exists ls, acc. split; [now rewrite Hout, <- app_assoc|].
  split; [unfold len, range_len in *; lia|exact Hlines].
Qed.

(** X16. Every accuracy that the training cell prints lies between 0 and
    1, whether the cell completes or raises. *)
Theorem training_loop_accuracies_in_range weight_decay n_epochs lr
    (gconv : GraphSAGEModel Activation Params) n_hidden n_classes labels
    (g : Graph) features train_idx val_idx test_idx (t : Torch Rng) r
    (s : Notebook OptWorld) :
  cell weight_decay n_epochs lr gconv n_hidden n_classes labels g features
    train_idx val_idx test_idx t = (r, s) ->
  Forall line_in_range (stdout s).
Proof.
  unfold training_loop.
  destruct (epochs _ _ _ _ _ _ _ _ _ _ _ _ _ _ _) as [[u1|e] s1] eqn:E.
  2:{ intros [= _ <-].
      apply epochs_cases in E as (_ & ls & Hout & Hrange & _).
      cbn [stdout] in Hout. now rewrite Hout. }
  apply epochs_cases in E as (_ & ls & Hout & Hrange & _).
  cbn [stdout] in Hout.
  destruct (NCEvaluate _ _ _ _ _ _ _ _) as [m' [[acc|e] t']] eqn:En;
    intros [= _ <-]; cbn [stdout]; rewrite Hout; cbn [app].
  - apply Forall_app. split; [apply Forall_app; split|].
    + exact Hrange.
    + constructor; [exact I|constructor].
    + constructor; [|constructor]. cbn [line_in_range].
      pose proof (f_equal snd En) as Hs. cbn [snd] in Hs.
      apply NCEvaluate_Ok_inv in Hs as (logits & t1 & _ & Hne & ->).
      now apply hit_rate_bounds.
  - apply Forall_app. split; [exact Hrange|].
    constructor; [exact I|constructor].
Qed.

(** X17. Training never changes the architecture: at the end of the cell,
    completed or not, the model has as many layers as the GraphSAGE model it
    was built from, with the same configuration; and when the cell
    completes, the model is left in evaluation mode. *)
Theorem training_loop_keeps_architecture weight_decay n_epochs lr
    (gconv : GraphSAGEModel Activation Params) n_hidden n_classes labels
    (g : Graph) features train_idx val_idx test_idx (t : Torch Rng) r
    (s : Notebook OptWorld) :
  cell weight_decay n_epochs lr gconv n_hidden n_classes labels g features
    train_idx val_idx test_idx t = (r, s) ->
  map layer_config (layers (gconv_model (model s)))
  = map layer_config (layers gconv) /\
  match r with
  | Ok _ => in_eval_mode (model s)
  | Raise _ => True
  end.
Proof.
  unfold training_loop.
  destruct (epochs _ _ _ _ _ _ _ _ _ _ _ _ _ _ _) as [[u1|e] s1] eqn:E.
  2:{ intros [= <- <-]. apply epochs_cases in E as (Hc & _).
      split; [exact Hc|exact I]. }
  apply epochs_cases in E as (Hc & _). cbn [model] in Hc.
  destruct (NCEvaluate _ _ _ _ _ _ _ _) as [m' [[acc|e] t']] eqn:En;
    intros [= <- <-]; cbn [model];
    pose proof (f_equal fst En) as Hm; rewrite NCEvaluate_fst in Hm;
    cbn [fst] in Hm; subst m'.
  - split; [|apply eval_in_eval_mode].
    unfold NodeClassification_eval. now rewrite config_train.
  - split; [|exact I].
    unfold NodeClassification_eval. now rewrite config_train.
Qed.

(** X18. With an empty validation index set and at least one epoch the
    training cell never completes, and it prints nothing: the first
    validation raises (or the first forward or backward pass does). *)
Theorem training_loop_empty_validation weight_decay n_epochs lr
    (gconv : GraphSAGEModel Activation Params) n_hidden n_classes labels
    (g : Graph) features train_idx test_idx (t : Torch Rng) :
  1 <= n_epochs ->
  exists e s,
    cell weight_decay n_epochs lr gconv n_hidden n_classes labels g features
      train_idx [] test_idx t = (Raise e, s) /\
    stdout s = [].
Proof.
  intros Hn. unfold training_loop.
  destruct (epochs _ _ _ _ _ _ _ _ _ _ _ _ _ _ _) as [[u1|e] s1] eqn:E.
  - apply epochs_cases in E as (_ & ls & _ & _ & _ & _ & Hlen & Hk).
    exfalso. destruct Hk as [[Hk _]|[Hne _]]; [|congruence].
    unfold range_len in Hk. lia.
  - apply epochs_cases in E as (_ & ls & Hout & _ & _ & Hne & _).
    exists e, s1. split; [reflexivity|].
    cbn [stdout app] in Hout. rewrite Hout.
    destruct ls; [reflexivity|]. exfalso. apply Hne; [discriminate|].
    reflexivity.
Qed.

(** X19. With an empty test index set the training cell never completes:
    it raises at the latest in the final evaluation, and no line of a test
    accuracy is printed. *)
Theorem training_loop_empty_test weight_decay n_epochs lr
    (gconv : GraphSAGEModel Activation Params) n_hidden n_classes labels
    (g : Graph) features train_idx val_idx (t : Torch Rng) :
  exists e s,
    cell weight_decay n_epochs lr gconv n_hidden n_classes labels g features
      train_idx val_idx [] t = (Raise e, s) /\
    forall acc, ~ In (TestLine acc) (stdout s).
Proof.
  unfold training_loop.
  assert (Hno : forall (ls : list (@line lossT)) k0 acc,
    (forall j l, nth_error ls j = Some l ->
                 is_epoch_line (k0 + Z.of_nat j) l) ->
    ~ In (TestLine acc) ls).
  { intros ls k0 acc Hlines Hin.
    apply In_nth_error in Hin as [j Hj]. now apply Hlines in Hj. }
  destruct (epochs _ _ _ _ _ _ _ _ _ _ _ _ _ _ _) as [[u1|e] s1] eqn:E.
  - apply epochs_cases in E as (_ & ls & Hout & _ & Hlines & _).
    cbn [stdout app] in Hout.
    destruct (NCEvaluate_nil_raises (model s1) g features labels (torch s1))
      as (e & t' & Hs).
    destruct (NCEvaluate _ _ _ _ _ _ _ _) as [m' rt]. cbn [snd] in Hs.
    subst rt. eexists. eexists. split; [reflexivity|].
    cbn [stdout]. rewrite Hout. intros acc Hin.
    apply in_app_or in Hin as [Hin|[Hin|[]]]; [|discriminate].
    now apply (Hno ls 0 acc).
  - apply epochs_cases in E as (_ & ls & Hout & _ & Hlines & _).
    cbn [stdout app] in Hout.
    exists e, s1. split; [reflexivity|]. rewrite Hout.
    intros acc. now apply (Hno ls 0 acc).
Qed.

(** X20. A training index outside the output of the model or outside the
    labels stops the cell in its first epoch with [IndexError], before the
    optimizer has made a step: the weights are the initial ones and nothing
    is printed. *)
Theorem training_loop_index_error weight_decay n_epochs lr
    (gconv : GraphSAGEModel Activation Params) n_hidden n_classes labels
    (g : Graph) features train_idx val_idx test_idx (t : Torch Rng)
    logits t1 :
  1 <= n_epochs ->
  GraphSAGEModel_forward SAGEConv_forward
    (GraphSAGEModel_train Activation Params true gconv) g features t
  = (Ok logits, t1) ->
  Exists (fun i => ~ valid_index (len logits) i \/
                   ~ valid_index (len labels) i) train_idx ->
  exists s,
    cell weight_decay n_epochs lr gconv n_hidden n_classes labels g features
      train_idx val_idx test_idx t = (Raise IndexError, s) /\
    parameters (model s) = map params (layers gconv) /\
    optimizer s = adam_init (map params (layers gconv)) lr weight_decay /\
    torch s = t1 /\
    stdout s = [].
Proof.
  intros Hn Hfw Hbad. unfold training_loop.
  destruct (range_len n_epochs) as [|k] eqn:Hk; [unfold range_len in Hk; lia|].
  cbn [epochs]. unfold epoch_body. cbn [model torch optimizer stdout].
  rewrite (forward_index_error SAGEConv_forward cross_entropy labels
             (NodeClassification_train Activation Params true
                (NodeClassification_init gconv n_hidden n_classes))
             g features train_idx t logits t1 Hfw Hbad).
  eexists. split; [reflexivity|]. cbn [model optimizer torch stdout].
  repeat split.
  unfold parameters, NodeClassification_train, GraphSAGEModel_train,
    NodeClassification_init. cbn [gconv_model layers].
  rewrite map_map. now apply map_ext.
Qed.

End TrainingFacts.

Lemma training_loop_output_witness :
  exists ls acc,
    stdout (snd (DemoTraining.run 2 [0] [1] [2]))
    = ls ++ [BlankLine; TestLine acc] /\
    len ls = Z.max 0 2 /\
    forall j l, nth_error ls j = Some l -> is_epoch_line (Z.of_nat j) l.
Proof.
  apply (training_loop_output Z.ltb Demo.shift_forward
           DemoTraining.count_loss DemoTraining.adam_init
           DemoTraining.zero_grad DemoTraining.backward
           DemoTraining.adam_step DemoTraining.adam_next (5 # 10000) 2
           (1 # 1000) DemoTraining.gconv0 64 3 Demo.labels0 tt
           Demo.features0 [0] [1] [2] Demo.torch0 tt
           (snd (DemoTraining.run 2 [0] [1] [2]))).
  reflexivity.
Defined.

Lemma training_loop_accuracies_in_range_witness :
  Forall line_in_range (stdout (snd (DemoTraining.run 2 [0] [1] [2]))).
Proof.
  apply (training_loop_accuracies_in_range Z.ltb Demo.shift_forward
           DemoTraining.count_loss DemoTraining.adam_init
           DemoTraining.zero_grad DemoTraining.backward
           DemoTraining.adam_step DemoTraining.adam_next (5 # 10000) 2
           (1 # 1000) DemoTraining.gconv0 64 3 Demo.labels0 tt
           Demo.features0 [0] [1] [2] Demo.torch0 (Ok tt)
           (snd (DemoTraining.run 2 [0] [1] [2]))).
  reflexivity.
Defined.

Lemma training_loop_keeps_architecture_witness :
  map layer_config
    (layers (gconv_model (model (snd (DemoTraining.run 2 [0] [1] [2])))))
  = map layer_config (layers DemoTraining.gconv0) /\
  in_eval_mode (model (snd (DemoTraining.run 2 [0] [1] [2]))).
Proof.
  apply (training_loop_keeps_architecture Z.ltb Demo.shift_forward
           DemoTraining.count_loss DemoTraining.adam_init
           DemoTraining.zero_grad DemoTraining.backward
           DemoTraining.adam_step DemoTraining.adam_next (5 # 10000) 2
           (1 # 1000) DemoTraining.gconv0 64 3 Demo.labels0 tt
           Demo.features0 [0] [1] [2] Demo.torch0 (Ok tt)
           (snd (DemoTraining.run 2 [0] [1] [2]))).
  reflexivity.
Defined.

Lemma training_loop_empty_validation_witness :
  exists e s,
    DemoTraining.run 150 [0] [] [2] = (Raise e, s) /\ stdout s = [].
Proof.
  apply (training_loop_empty_validation Z.ltb Demo.shift_forward
           DemoTraining.count_loss DemoTraining.adam_init
           DemoTraining.zero_grad DemoTraining.backward
           DemoTraining.adam_step DemoTraining.adam_next (5 # 10000) 150
           (1 # 1000) DemoTraining.gconv0 64 3 Demo.labels0 tt
           Demo.features0 [0] [2] Demo.torch0).
  lia.
Defined.

Lemma training_loop_index_error_witness :
  exists s,
    DemoTraining.run 150 [5] [1] [2] = (Raise IndexError, s) /\
    parameters (model s) = map params (layers DemoTraining.gconv0) /\
    optimizer s
    = DemoTraining.adam_init (map params (layers DemoTraining.gconv0))
        (1 # 1000) (5 # 10000) /\
    torch s = Demo.torch0 /\
    stdout s = [].
Proof.
  apply (training_loop_index_error Z.ltb Demo.shift_forward
           DemoTraining.count_loss DemoTraining.adam_init
           DemoTraining.zero_grad DemoTraining.backward
           DemoTraining.adam_step DemoTraining.adam_next (5 # 10000) 150
           (1 # 1000) DemoTraining.gconv0 64 3 Demo.labels0 tt
           Demo.features0 [5] [1] [2] Demo.torch0 Demo.features0
           Demo.torch0).
  - lia.
  - reflexivity.
  - apply Exists_cons_hd. left.
    unfold valid_index, len, Demo.features0. simpl length. lia.
Defined.

(* ================================================================== *)
(** * Evaluation on the index set of a mask *)

Section MaskEvaluation.

Context {Graph score Activation Params Rng : Type}.
Variable score_ltb : score -> score -> bool.
Variable SAGEConv_forward :
  SAGEConv Activation Params -> Graph -> tensor2 score ->
  M Rng (tensor2 score).

(** X21. [NCEvaluate] on the index set of a mask returns an accuracy
    between 0 and 1 when the mask has an entry greater than 0 and the model
    returns an output with one row per entry of the mask, each with at
    least one class, and there is one label per entry of the mask. *)
Theorem NCEvaluate_on_mask
    (model : NodeClassification Activation Params)
    (g : Graph) features labels (mask : list Z) (t : Torch Rng) logits t1 :
  GraphSAGEModel_forward SAGEConv_forward
    (gconv_model (NodeClassification_eval model)) g features
    (set_grad_enabled false t) = (Ok logits, t1) ->
  len logits = len mask ->
  len labels = len mask ->
  Forall (fun row => row <> []) logits ->
  Exists (fun x => 0 < x) mask ->
  exists acc t',
    snd (NCEvaluate score_ltb SAGEConv_forward model g features labels
           (np_where (gt0 mask)) t) = (Ok acc, t') /\
    (0 <= acc <= 1)%Q.
Proof.
  intros Hfw Hl Hy Hrows Hpos.
  assert (Hb : Forall (fun i => 0 <= i < len mask) (np_where (gt0 mask))).
  { unfold np_where. eapply Forall_impl; [|apply where_from_bounds].
    cbv beta. unfold len. rewrite gt0_length. intros i. lia. }
  assert (Hne : np_where (gt0 mask) <> []).
  { apply Exists_exists in Hpos as (x & Hin & Hx).
    apply In_nth_error in Hin as [k Hk].
    assert (Hk' : (k < length mask)%nat)
      by (apply nth_error_Some; congruence).
    assert (Hin : In (Z.of_nat k) (np_where (gt0 mask))).
    { apply np_where_gt0_In. split; [unfold len; lia|].
      exists x. now rewrite Nat2Z.id. }
    intros E. rewrite E in Hin. inversion Hin. }
  destruct (NCEvaluate_total score_ltb SAGEConv_forward model g features
              labels (np_where (gt0 mask)) t logits t1 Hfw Hne)
    as (acc & t' & H); trivial.
  - eapply Forall_impl; [|exact Hb]. cbv beta. unfold valid_index. lia.
  - eapply Forall_impl; [|exact Hb]. cbv beta. unfold valid_index. lia.
  - exists acc, t'. split; [exact H|].
    apply NCEvaluate_Ok_inv in H as (logits' & t1' & _ & _ & ->).
    now apply hit_rate_bounds.
Qed.

End MaskEvaluation.

Lemma NCEvaluate_on_mask_witness :
  exists acc t',
    snd (NCEvaluate Z.ltb Demo.shift_forward Demo.model0 tt Demo.features0
           Demo.labels0 (np_where (gt0 [0; 1; 1])) Demo.torch0)
    = (Ok acc, t') /\
    (0 <= acc <= 1)%Q.
Proof.
  apply (NCEvaluate_on_mask Z.ltb Demo.shift_forward Demo.model0 tt
           Demo.features0 Demo.labels0 [0; 1; 1] Demo.torch0 Demo.features0
           (mkTorch false 0) eq_refl).
  - reflexivity.
  - reflexivity.
  - repeat constructor; discriminate.
  - apply Exists_cons_tl. apply Exists_cons_hd. lia.
Defined.
